(** * Retrieval helpers of the storage application: [src/lib/ai/rag.ts]

    A shallow embedding of the three functions of [rag.ts]
    ([extractTextFromFile], [indexDocument] and the tool
    [searchFileContentTool]) together with the statements the retrieval
    specification makes about them.

    The functions are [async] and talk to four collaborators: the blob
    storage, the PDF parser, the embedding model and the document
    database.  They are modelled in a monad that threads the observable
    world (database rows and the trace of calls made so far) and that keeps
    the world when an exception is thrown, so that a [try]/[catch] sees the
    writes made before the failure. *)

From Stdlib Require Import String Ascii.
From Stdlib Require Import List Arith Lia Bool NArith.
Import ListNotations.

Set Implicit Arguments.
Set Warnings "-abstract-large-number".

(** ** JavaScript strings and buffers *)

(** A JavaScript string is a sequence of UTF-16 code units; [length],
    [startsWith], [===] and the regular expression [[\s\S]] all work on
    code units. *)
Definition code_unit := N.
Definition jsstring := list code_unit.

(** A string literal of the source (the literals of [rag.ts] are ASCII). *)
Definition lit (s : string) : jsstring :=
  map N_of_ascii (list_ascii_of_string s).

Definition code_unit_eqb : code_unit -> code_unit -> bool := N.eqb.

(** [a === b] on strings. *)
Fixpoint jsstring_eqb (a b : jsstring) : bool :=
  match a, b with
  | [], [] => true
  | x :: a', y :: b' => code_unit_eqb x y && jsstring_eqb a' b'
  | _, _ => false
  end.

(** [s.startsWith(p)]. *)
Fixpoint startsWith (s p : jsstring) : bool :=
  match p, s with
  | [], _ => true
  | y :: p', x :: s' => code_unit_eqb x y && startsWith s' p'
  | _ :: _, [] => false
  end.

(** [parts.join(sep)]. *)
Fixpoint join (sep : jsstring) (parts : list jsstring) : jsstring :=
  match parts with
  | [] => []
  | [p] => p
  | p :: rest => p ++ sep ++ join sep rest
  end.

(** Truthiness of a string value: only the empty string is falsy. *)
Definition truthy (s : jsstring) : bool :=
  match s with [] => false | _ :: _ => true end.

(** Truthiness of [process.env.X], which is a string or [undefined]. *)
Definition env_truthy (v : option jsstring) : bool :=
  match v with None => false | Some s => truthy s end.

(** The postfix [!] of TypeScript has no effect at run time; it is only
    applied where the value has just been tested to be truthy. *)
Definition non_null (v : option jsstring) : jsstring :=
  match v with Some s => s | None => [] end.

(** [a || b] on strings. *)
Definition or_else (a b : jsstring) : jsstring :=
  if truthy a then a else b.

Definition bytes := list Byte.byte.

(** ** Chunking: [text.match(/[\s\S]{1,1000}/g) || []] *)

(** A global match of [/[\s\S]{1,n}/]: at every position the greedy
    quantifier takes as many code units as are left, up to [n], and the next
    match starts where this one ended; the search stops at the end of the
    input.  Every match consumes at least one code unit, so the length of
    the input bounds the number of matches; [fuel] is that bound. *)
Fixpoint matchAllUpTo (n fuel : nat) (s : jsstring) : list jsstring :=
  match fuel with
  | 0 => []
  | S fuel' =>
      match s with
      | [] => []
      | _ :: _ => firstn n s :: matchAllUpTo n fuel' (skipn n s)
      end
  end.

Definition CHUNK_LIMIT : nat := 1000.

(** [match] returns [null] when nothing matches, and [null || []] is the
    empty array: the same value as the empty list of matches. *)
Definition chunkText (text : jsstring) : list jsstring :=
  matchAllUpTo CHUNK_LIMIT (length text) text.

(** ** Exceptions *)

(** A thrown value: [new Error(message)]. *)
Record Error := MkError { message : jsstring }.

(** How an [async] call ends: the promise is fulfilled with a value or
    rejected with an error. *)
Inductive Outcome (A : Type) : Type :=
| Returned (a : A)
| Thrown (e : Error).

Arguments Returned {A} a.
Arguments Thrown {A} e.

Definition is_returned {A} (o : Outcome A) : bool :=
  match o with Returned _ => true | Thrown _ => false end.

(** ** The world the module acts on *)

Section Model.

(** The embedding vector ([number[]]); the module only passes it on. *)
Variable Vector : Type.

(** The data of a document of the embeddings collection (lines 77-82). *)
Record ChunkData := MkChunk {
  fileId : jsstring;
  content : jsstring;
  vector : Vector
}.

(** A stored document: where it lives, its id and its data. *)
Record Row := MkRow {
  row_database : jsstring;
  row_collection : jsstring;
  row_id : jsstring;
  row_data : ChunkData
}.

(** The queries the module builds: [Query.contains(attribute, value)]. *)
Inductive Query : Type :=
| Query_contains (attribute value : jsstring).

(** What the module writes on the console. *)
Inductive ConsoleLine : Type :=
| LogStartingIndexing (file : jsstring)
| LogExtracted (chars chunks : nat)
| WarnCollectionNotSet
| LogIndexed (file : jsstring)
| ErrorIndexing (e : Error)
| ErrorSearch (e : Error).

(** The calls that leave the module, in the order they are made. *)
Inductive Event : Type :=
| EvConsole (line : ConsoleLine)
| EvGetFileDownload (bucket bucketFile : jsstring)
| EvEmbedQuery (text : jsstring)
| EvCreateDocument (db collection id : jsstring) (data : ChunkData)
| EvListDocuments (db collection : jsstring) (queries : list Query).

Record World := MkWorld {
  database : list Row;
  trace : list Event
}.

(** [appwriteConfig] and [process.env]: read, never written. *)
Record Config := MkConfig {
  databaseId : jsstring;
  bucketId : jsstring;
  NEXT_PUBLIC_APPWRITE_VECTOR_COLLECTION : option jsstring
}.

(** The collaborators.  Their answers may depend on everything that has
    happened so far (the trace), so a call can fail once and succeed
    later.  [createAdminClient], [appwriteConfig] and the libraries are
    not part of [rag.ts]; they are parameters of the model. *)
Record Services := MkServices {
  (** [createAdminClient()]: [None] when the client is built. *)
  svc_createAdminClient : option Error;
  (** [storage.getFileDownload(bucket, file)]. *)
  svc_getFileDownload : list Event -> jsstring -> jsstring -> Outcome bytes;
  (** [parse(buffer)] of pdf-parse, then [.text]. *)
  svc_pdf_parse : bytes -> Outcome jsstring;
  (** [buffer.toString("utf-8")]: total, malformed input is replaced. *)
  svc_utf8_decode : bytes -> jsstring;
  (** [embeddings.embedQuery(text)]. *)
  svc_embedQuery : list Event -> jsstring -> Outcome Vector;
  (** [ID.unique()]. *)
  svc_unique : list Event -> jsstring;
  (** Whether the database refuses a request (network, permissions,
      missing collection, ...). *)
  svc_database_fault : list Event -> Event -> option Error;
  (** How the database evaluates a query on a document. *)
  svc_matches : Query -> ChunkData -> bool;
  (** The number of documents one [listDocuments] call returns at most. *)
  svc_page_limit : nat
}.

Variable cfg : Config.
Variable svc : Services.

(** ** The monad of [async] code *)

(** The world is kept when an exception is thrown. *)
Definition M (A : Type) : Type := World -> Outcome A * World.

Definition ret {A} (a : A) : M A := fun w => (Returned a, w).

Definition throw {A} (e : Error) : M A := fun w => (Thrown e, w).

Definition bind {A B} (m : M A) (k : A -> M B) : M B :=
  fun w =>
    match m w with
    | (Returned a, w') => k a w'
    | (Thrown e, w') => (Thrown e, w')
    end.

(** [try { body } catch (error) { handler }]. *)
Definition try_catch {A} (body : M A) (handler : Error -> M A) : M A :=
  fun w =>
    match body w with
    | (Returned a, w') => (Returned a, w')
    | (Thrown e, w') => handler e w'
    end.

(** The result of a pure computation that may throw. *)
Definition lift {A} (o : Outcome A) : M A := fun w => (o, w).

Notation "x <- m ;; k" := (bind m (fun x => k))
  (at level 61, m at next level, right associativity).
Notation "m ;;; k" := (bind m (fun _ => k))
  (at level 61, right associativity).

Definition emit (e : Event) (w : World) : World :=
  MkWorld (database w) (trace w ++ [e]).

Definition store (r : Row) (w : World) : World :=
  MkWorld (database w ++ [r]) (trace w).

(** ** The calls *)

Definition createAdminClient : M unit :=
  fun w =>
    match svc_createAdminClient svc with
    | None => (Returned tt, w)
    | Some e => (Thrown e, w)
    end.

Definition console (line : ConsoleLine) : M unit :=
  fun w => (Returned tt, emit (EvConsole line) w).

Definition getFileDownload (bucket bucketFile : jsstring) : M bytes :=
  fun w =>
    (svc_getFileDownload svc (trace w) bucket bucketFile,
     emit (EvGetFileDownload bucket bucketFile) w).

Definition embedQuery (text : jsstring) : M Vector :=
  fun w => (svc_embedQuery svc (trace w) text, emit (EvEmbedQuery text) w).

Definition ID_unique : M jsstring :=
  fun w => (Returned (svc_unique svc (trace w)), w).

(** [databases.createDocument(db, collection, id, data)]: the document is
    added unless the database refuses the request. *)
Definition createDocument (db collection id : jsstring) (data : ChunkData)
  : M unit :=
  fun w =>
    let ev := EvCreateDocument db collection id data in
    match svc_database_fault svc (trace w) ev with
    | Some e => (Thrown e, emit ev w)
    | None => (Returned tt, emit ev (store (MkRow db collection id data) w))
    end.

Definition in_collection (db collection : jsstring) (r : Row) : bool :=
  jsstring_eqb (row_database r) db
  && jsstring_eqb (row_collection r) collection.

Definition selected (db collection : jsstring) (queries : list Query)
    (r : Row) : bool :=
  in_collection db collection r
  && forallb (fun q => svc_matches svc q (row_data r)) queries.

(** [databases.listDocuments(db, collection, queries)], then
    [.documents]: the first page of the documents of the collection that
    satisfy every query, in the order of the collection. *)
Definition listDocuments (db collection : jsstring) (queries : list Query)
  : M (list Row) :=
  fun w =>
    let ev := EvListDocuments db collection queries in
    match svc_database_fault svc (trace w) ev with
    | Some e => (Thrown e, emit ev w)
    | None =>
        (Returned (firstn (svc_page_limit svc)
                     (filter (selected db collection queries) (database w))),
         emit ev w)
    end.

(** ** [extractTextFromFile] (lines 21-33) *)

Definition unsupported_message (mimeType : jsstring) : jsstring :=
  lit "Unsupported file type for indexing: " ++ mimeType.

Definition extractTextFromFile (fileBuffer : bytes) (mimeType : jsstring)
  : Outcome jsstring :=
  if jsstring_eqb mimeType (lit "application/pdf") then
    svc_pdf_parse svc fileBuffer
  else if startsWith mimeType (lit "text/") then
    Returned (svc_utf8_decode svc fileBuffer)
  else
    Thrown (MkError (unsupported_message mimeType)).

(** ** [indexDocument] (lines 42-91) *)

(** How the [for] loop over the chunks is left: it ran to its end, or the
    [return] of line 70 left the function from inside it. *)
Inductive LoopExit : Type :=
| LoopCompleted
| LoopReturn.

(** Lines 62-84. *)
Fixpoint indexChunks (file : jsstring) (chunks : list jsstring)
  : M LoopExit :=
  match chunks with
  | [] => ret LoopCompleted
  | chunk :: rest =>
      vector <- embedQuery chunk ;;
      if negb (env_truthy (NEXT_PUBLIC_APPWRITE_VECTOR_COLLECTION cfg)) then
        console WarnCollectionNotSet ;;;
        ret LoopReturn
      else
        id <- ID_unique ;;
        createDocument (databaseId cfg)
          (non_null (NEXT_PUBLIC_APPWRITE_VECTOR_COLLECTION cfg)) id
          (MkChunk file chunk vector) ;;;
        indexChunks file rest
  end.

(** [Buffer.from(fileBuffer)] of line 53 wraps the downloaded bytes without
    changing them. *)
Definition indexDocument (file bucketFileId mimeType : jsstring) : M unit :=
  createAdminClient ;;;
  try_catch
    (console (LogStartingIndexing file) ;;;
     fileBuffer <- getFileDownload (bucketId cfg) bucketFileId ;;
     text <- lift (extractTextFromFile fileBuffer mimeType) ;;
     let chunks := chunkText text in
     console (LogExtracted (length text) (length chunks)) ;;;
     exit <- indexChunks file chunks ;;
     match exit with
     | LoopReturn => ret tt
     | LoopCompleted => console (LogIndexed file)
     end)
    (fun error => console (ErrorIndexing error)).

(** ** [searchFileContentTool] (lines 96-151) *)

Definition NOT_CONFIGURED : jsstring := lit "Vector search not configured.".
Definition NO_RELEVANT_CONTENT : jsstring :=
  lit "No relevant content found in documents.".
Definition SEARCH_FAILED : jsstring :=
  lit "Failed to search document content.".
Definition SEPARATOR : jsstring :=
  [10%N] ++ lit "---" ++ [10%N].

(** Lines 132-140: the documents the tool retrieves for a query. *)
Definition retrieve (collection query : jsstring) : M (list Row) :=
  listDocuments (databaseId cfg) collection
    [Query_contains (lit "content") query].

(** Line 143: [results.documents.map(d => d.content)]. *)
Definition contents (documents : list Row) : list jsstring :=
  map (fun d => content (row_data d)) documents.

Definition searchFileContentTool (query : jsstring) : M jsstring :=
  createAdminClient ;;;
  if negb (env_truthy (NEXT_PUBLIC_APPWRITE_VECTOR_COLLECTION cfg)) then
    ret NOT_CONFIGURED
  else
    try_catch
      (queryVector <- embedQuery query ;;
       documents <-
         retrieve (non_null (NEXT_PUBLIC_APPWRITE_VECTOR_COLLECTION cfg))
           query ;;
       let relevantContent := join SEPARATOR (contents documents) in
       ret (or_else relevantContent NO_RELEVANT_CONTENT))
      (fun error =>
         console (ErrorSearch error) ;;;
         ret SEARCH_FAILED).

End Model.

Arguments EvConsole {Vector} line.
Arguments EvGetFileDownload {Vector} bucket bucketFile.
Arguments EvEmbedQuery {Vector} text.
Arguments EvListDocuments {Vector} db collection queries.

(** ** A reference instance of the collaborators

    An in-memory blob store and database with no faults, against which the
    functions can be run: the blob store holds one file, the embedding of a
    text is a one-component vector, document ids are numbered by the
    length of the trace, and [contains] is a substring test. *)

Module Fixture.

Definition Vec := list N.

(** [s.includes(needle)]. *)
Fixpoint includes (s needle : jsstring) : bool :=
  startsWith s needle
  || match s with
     | [] => false
     | _ :: s' => includes s' needle
     end.

Definition matches (q : Query) (d : ChunkData Vec) : bool :=
  match q with
  | Query_contains attribute value =>
      if jsstring_eqb attribute (lit "content") then
        includes (content d) value
      else if jsstring_eqb attribute (lit "fileId") then
        includes (fileId d) value
      else false
  end.

(** ASCII bytes decode to the code units of the same value. *)
Definition decode_ascii (b : bytes) : jsstring := map Byte.to_N b.

Definition embed_length (text : jsstring) : Vec :=
  [N.of_nat (length text)].

Definition cfg : Config :=
  MkConfig (lit "db") (lit "bucket") (Some (lit "file_embeddings")).

Definition cfg_unset : Config :=
  MkConfig (lit "db") (lit "bucket") None.

(** Every call succeeds; [blob] is what the blob store holds. *)
Definition healthy (blob : bytes) : Services Vec :=
  {| svc_createAdminClient := None;
     svc_getFileDownload := fun _ _ _ => Returned blob;
     svc_pdf_parse := fun b => Returned (decode_ascii b);
     svc_utf8_decode := decode_ascii;
     svc_embedQuery := fun _ text => Returned (embed_length text);
     svc_unique := fun tr => [N.of_nat (length tr)];
     svc_database_fault := fun _ _ => None;
     svc_matches := matches;
     svc_page_limit := 25 |}.

(** As [healthy], but the embedding model rejects the texts that
    satisfy [bad]. *)
Definition embedding_rejects (bad : jsstring -> bool) (blob : bytes)
  : Services Vec :=
  {| svc_createAdminClient := None;
     svc_getFileDownload := fun _ _ _ => Returned blob;
     svc_pdf_parse := fun b => Returned (decode_ascii b);
     svc_utf8_decode := decode_ascii;
     svc_embedQuery := fun _ text =>
       if bad text then Thrown (MkError (lit "embedding failed"))
       else Returned (embed_length text);
     svc_unique := fun tr => [N.of_nat (length tr)];
     svc_database_fault := fun _ _ => None;
     svc_matches := matches;
     svc_page_limit := 25 |}.

(** As [healthy], but the blob store is unreachable. *)
Definition storage_down : Services Vec :=
  {| svc_createAdminClient := None;
     svc_getFileDownload := fun _ _ _ =>
       Thrown (MkError (lit "storage unreachable"));
     svc_pdf_parse := fun b => Returned (decode_ascii b);
     svc_utf8_decode := decode_ascii;
     svc_embedQuery := fun _ text => Returned (embed_length text);
     svc_unique := fun tr => [N.of_nat (length tr)];
     svc_database_fault := fun _ _ => None;
     svc_matches := matches;
     svc_page_limit := 25 |}.

(** As [healthy], but the database refuses every request. *)
Definition database_down (blob : bytes) : Services Vec :=
  {| svc_createAdminClient := None;
     svc_getFileDownload := fun _ _ _ => Returned blob;
     svc_pdf_parse := fun b => Returned (decode_ascii b);
     svc_utf8_decode := decode_ascii;
     svc_embedQuery := fun _ text => Returned (embed_length text);
     svc_unique := fun tr => [N.of_nat (length tr)];
     svc_database_fault := fun _ _ =>
       Some (MkError (lit "database unreachable"));
     svc_matches := matches;
     svc_page_limit := 25 |}.

(** As [healthy], but the admin client cannot be built. *)
Definition client_down (blob : bytes) : Services Vec :=
{| svc_createAdminClient := Some (MkError (lit "invalid endpoint"));
   svc_getFileDownload := fun _ _ _ => Returned blob;
   svc_pdf_parse := fun b => Returned (decode_ascii b);
   svc_utf8_decode := decode_ascii;
   svc_embedQuery := fun _ text => Returned (embed_length text);
   svc_unique := fun tr => [N.of_nat (length tr)];
   svc_database_fault := fun _ _ => None;
   svc_matches := matches;
   svc_page_limit := 25 |}.

Definition empty_world : World Vec := MkWorld [] [].

(** A stored chunk of the embeddings collection of [cfg]. *)
Definition chunk_row (id file text : string) : Row Vec :=
  MkRow (lit "db") (lit "file_embeddings") (lit id)
    (MkChunk (lit file) (lit text) (embed_length (lit text))).

(** Two users' files indexed side by side. *)
Definition two_tenants : World Vec :=
  MkWorld
    [ chunk_row "1" "fileA" "quarterly report of Alice";
      chunk_row "2" "fileB" "salary report of Bob" ]
    [].

(** Six chunks that all mention the same word. *)
Definition six_matches : World Vec :=
  MkWorld
    [ chunk_row "1" "fileA" "report one";
      chunk_row "2" "fileA" "report two";
      chunk_row "3" "fileA" "report three";
      chunk_row "4" "fileA" "report four";
      chunk_row "5" "fileA" "report five";
      chunk_row "6" "fileA" "report six" ]
    [].

Definition ascii_blob (c : string) (n : nat) : bytes :=
  match list_byte_of_string c with
  | b :: _ => repeat b n
  | [] => []
  end.

End Fixture.

(** ** Properties the retrieval specification names *)

(** The last [k] code units of [c1] are the first [k] of [c2]. *)
Definition shares_overlap (k : nat) (c1 c2 : jsstring) : Prop :=
  k <= length c1 /\ k <= length c2
  /\ skipn (length c1 - k) c1 = firstn k c2.

(** Every retrieved document belongs to a file of [accessible]. *)
Definition owned_by (Vector : Type) (accessible : list jsstring)
    (documents : list (Row Vector)) : Prop :=
  Forall (fun d => In (fileId (row_data d)) accessible) documents.

(** The documents [indexDocument] writes for the chunks [chunks] of the
    file [file]: one per chunk, in order, in the configured collection. *)
Definition rows_of (Vector : Type) (cfg : Config) (file : jsstring)
    (chunks : list jsstring) (rows : list (Row Vector)) : Prop :=
  contents rows = chunks
  /\ Forall (fun r => fileId (row_data r) = file
                      /\ row_database r = databaseId cfg
                      /\ row_collection r
                         = non_null (NEXT_PUBLIC_APPWRITE_VECTOR_COLLECTION cfg))
       rows.

(** A document as [indexDocument] writes it for the file [file]: it carries
    the id of the file, lives in the configured collection, its content is
    one of [chunks] and its vector is what the embedding model returned for
    that content. *)
Definition stored_chunk (Vector : Type) (cfg : Config) (svc : Services Vector)
    (file : jsstring) (chunks : list jsstring) (r : Row Vector) : Prop :=
  fileId (row_data r) = file
  /\ row_database r = databaseId cfg
  /\ row_collection r
     = non_null (NEXT_PUBLIC_APPWRITE_VECTOR_COLLECTION cfg)
  /\ In (content (row_data r)) chunks
  /\ exists tr,
       svc_embedQuery svc tr (content (row_data r))
       = Returned (vector (row_data r)).

(** The same collaborators with another embedding model. *)
Definition with_embedQuery (Vector : Type) (svc : Services Vector)
    (model : list (Event Vector) -> jsstring -> Outcome Vector)
  : Services Vector :=
  {| svc_createAdminClient := svc_createAdminClient svc;
     svc_getFileDownload := svc_getFileDownload svc;
     svc_pdf_parse := svc_pdf_parse svc;
     svc_utf8_decode := svc_utf8_decode svc;
     svc_embedQuery := model;
     svc_unique := svc_unique svc;
     svc_database_fault := svc_database_fault svc;
     svc_matches := svc_matches svc;
     svc_page_limit := svc_page_limit svc |}.

(** The texts sent to the embedding model, in the order of the calls. *)
Definition embed_calls (Vector : Type) (tr : list (Event Vector))
  : list jsstring :=
  flat_map (fun ev => match ev with
                      | EvEmbedQuery text => [text]
                      | _ => []
                      end) tr.

(** ** Facts about the chunking *)

Section Chunking.

Variable n : nat.
Hypothesis n_pos : 0 < n.

Lemma matchAllUpTo_nil fuel : matchAllUpTo n fuel [] = [].
Proof. destruct fuel; reflexivity. Qed.

(** Any two amounts of fuel that cover the input give the same matches. *)
Lemma matchAllUpTo_fuel_irrelevant :
  forall fuel fuel' s, length s <= fuel -> length s <= fuel' ->
    matchAllUpTo n fuel s = matchAllUpTo n fuel' s.
Proof.
  induction fuel as [|fuel IH]; intros fuel' s Hlen Hlen'.
  - destruct s; simpl in *; [|lia]. now rewrite !matchAllUpTo_nil.
  - destruct s as [|c s]; [now rewrite !matchAllUpTo_nil|].
    destruct fuel' as [|fuel']; [simpl in Hlen'; lia|].
    cbn [matchAllUpTo]. f_equal.
    assert (Hs : length (skipn n (c :: s)) <= length s).
    { rewrite length_skipn. cbn [length]. lia. }
    simpl in Hlen, Hlen'. apply IH; lia.
Qed.

Lemma matchAllUpTo_fuel :
  forall fuel s, length s <= fuel ->
    matchAllUpTo n fuel s = matchAllUpTo n (length s) s.
Proof.
  intros fuel s Hlen. apply matchAllUpTo_fuel_irrelevant; lia.
Qed.

(** The unfolding equation of the global match on a non-empty input. *)
Lemma matchAllUpTo_step c s :
  matchAllUpTo n (length (c :: s)) (c :: s)
  = firstn n (c :: s)
      :: matchAllUpTo n (length (skipn n (c :: s))) (skipn n (c :: s)).
Proof.
  cbn [length matchAllUpTo]. f_equal.
  apply matchAllUpTo_fuel.
  rewrite length_skipn. cbn [length]. lia.
Qed.

(** The matches are consecutive slices: put end to end they give the
    input back. *)
Lemma matchAllUpTo_concat :
  forall fuel s, length s <= fuel -> concat (matchAllUpTo n fuel s) = s.
Proof.
  induction fuel as [|fuel IH]; intros s Hlen.
  - destruct s; simpl in *; [reflexivity | lia].
  - destruct s as [|c s]; [reflexivity|].
    cbn [matchAllUpTo concat].
    rewrite IH.
    + apply firstn_skipn.
    + rewrite length_skipn. cbn [length] in *. lia.
Qed.

(** Every match has between one and [n] code units. *)
Lemma matchAllUpTo_sizes :
  forall fuel s,
    Forall (fun c => 1 <= length c <= n) (matchAllUpTo n fuel s).
Proof.
  induction fuel as [|fuel IH]; intros s; [constructor|].
  destruct s as [|c s]; [constructor|].
  cbn [matchAllUpTo]. constructor; [|apply IH].
  rewrite length_firstn. cbn [length]. lia.
Qed.

(** A match that is followed by another one is full. *)
Lemma matchAllUpTo_full :
  forall fuel s i c,
    nth_error (matchAllUpTo n fuel s) i = Some c ->
    S i < length (matchAllUpTo n fuel s) ->
    length c = n.
Proof.
  induction fuel as [|fuel IH]; intros s i c Hnth Hlt.
  - simpl in Hlt. lia.
  - destruct s as [|c0 s]; [simpl in Hlt; lia|].
    cbn [matchAllUpTo] in Hnth, Hlt.
    destruct i as [|i].
    + cbn [nth_error] in Hnth. injection Hnth as <-.
      cbn [length] in Hlt.
      destruct (le_lt_dec (length (c0 :: s)) n) as [Hle|Hgt].
      * rewrite (skipn_all2 (c0 :: s) Hle) in Hlt.
        rewrite matchAllUpTo_nil in Hlt. simpl in Hlt. lia.
      * rewrite length_firstn. lia.
    + cbn [nth_error] in Hnth. cbn [length] in Hlt.
      apply (IH _ _ _ Hnth). lia.
Qed.

(** The number of matches is the length divided by [n], rounded up. *)
Lemma matchAllUpTo_count :
  forall fuel s, length s <= fuel ->
    length (matchAllUpTo n fuel s) = (length s + n - 1) / n.
Proof.
  induction fuel as [|fuel IH]; intros s Hlen.
  - destruct s; simpl in *; [|lia].
    rewrite Nat.div_small; [reflexivity | lia].
  - destruct s as [|c s].
    + simpl. rewrite Nat.div_small; [reflexivity | lia].
    + cbn [matchAllUpTo length].
      rewrite IH by (rewrite length_skipn; cbn [length] in *; lia).
      rewrite length_skipn. cbn [length].
      destruct (le_lt_dec (S (length s)) n) as [Hle|Hgt].
      * replace (S (length s) - n) with 0 by lia.
        replace (0 + n - 1) with (n - 1) by lia.
        rewrite (Nat.div_small (n - 1) n) by lia.
        replace (S (length s) + n - 1) with (length s + 1 * n) by lia.
        rewrite Nat.div_add by lia.
        rewrite Nat.div_small by lia. reflexivity.
      * replace (S (length s) + n - 1)
          with ((S (length s) - n + n - 1) + 1 * n) by lia.
        rewrite Nat.div_add by lia. lia.
Qed.

End Chunking.

(** ** Facts about strings *)

Lemma jsstring_eqb_eq (a b : jsstring) : jsstring_eqb a b = true <-> a = b.
Proof.
  revert b. induction a as [|x a IH]; intros [|y b]; simpl;
    try (split; [discriminate | intros H; discriminate H]);
    [split; reflexivity|].
  unfold code_unit_eqb. rewrite andb_true_iff, N.eqb_eq, IH.
  split.
  - intros [-> ->]. reflexivity.
  - intros H. injection H as -> ->. split; reflexivity.
Qed.

Lemma jsstring_eqb_neq (a b : jsstring) : jsstring_eqb a b = false <-> a <> b.
Proof.
  rewrite <- jsstring_eqb_eq. destruct (jsstring_eqb a b); split;
    congruence.
Qed.

Lemma startsWith_prefix (s p : jsstring) :
  startsWith s p = true <-> exists rest, s = p ++ rest.
Proof.
  revert s. induction p as [|y p IH]; intros s; simpl.
  - split; [intros _; exists s; reflexivity | intros _; destruct s; reflexivity].
  - destruct s as [|x s]; cbn [startsWith].
    + split; [discriminate | intros [rest H]; discriminate H].
    + unfold code_unit_eqb. rewrite andb_true_iff, N.eqb_eq, IH.
      split.
      * intros [-> [rest ->]]. exists rest. reflexivity.
      * intros [rest H]. injection H as -> ->. split; [reflexivity|].
        exists rest. reflexivity.
Qed.

Lemma startsWith_not_prefix (s p : jsstring) :
  startsWith s p = false <-> forall rest, s <> p ++ rest.
Proof.
  split.
  - intros H rest ->.
    assert (Ht : startsWith (p ++ rest) p = true)
      by (apply startsWith_prefix; exists rest; reflexivity).
    congruence.
  - intros H. destruct (startsWith s p) eqn:E; [|reflexivity].
    apply startsWith_prefix in E. destruct E as [rest ->].
    exfalso. apply (H rest). reflexivity.
Qed.

Lemma contents_length (Vector : Type) (documents : list (Row Vector)) :
  length (contents documents) = length documents.
Proof. apply length_map. Qed.

(** ** Facts about the calls and the loop *)

Section Runs.

Variable Vector : Type.
Variable cfg : Config.
Variable svc : Services Vector.

Local Abbreviation World := (World Vector).
Local Abbreviation Row := (Row Vector).

Let env := NEXT_PUBLIC_APPWRITE_VECTOR_COLLECTION cfg.

(** One turn of the loop when the collection is not configured: the
    chunk is embedded, then the function returns. *)
Lemma indexChunks_unset file chunk rest (w : World) :
  env_truthy env = false ->
  indexChunks cfg svc file (chunk :: rest) w
  = match svc_embedQuery svc (trace w) chunk with
    | Returned _ =>
        (Returned LoopReturn,
         emit (EvConsole WarnCollectionNotSet) (emit (EvEmbedQuery chunk) w))
    | Thrown e => (Thrown e, emit (EvEmbedQuery chunk) w)
    end.
Proof.
  intros Henv. cbn [indexChunks]. unfold bind at 1, embedQuery.
  destruct (svc_embedQuery svc (trace w) chunk); [|reflexivity].
  fold env. rewrite Henv. reflexivity.
Qed.

(** One turn of the loop when the collection is configured. *)
Lemma indexChunks_set file chunk rest (w : World) :
  env_truthy env = true ->
  indexChunks cfg svc file (chunk :: rest) w
  = match svc_embedQuery svc (trace w) chunk with
    | Returned v =>
        let w1 := emit (EvEmbedQuery chunk) w in
        let id := svc_unique svc (trace w1) in
        let data := MkChunk file chunk v in
        let ev := EvCreateDocument (databaseId cfg) (non_null env) id data in
        match svc_database_fault svc (trace w1) ev with
        | Some e => (Thrown e, emit ev w1)
        | None =>
            indexChunks cfg svc file rest
              (emit ev
                 (store (MkRow (databaseId cfg) (non_null env) id data) w1))
        end
    | Thrown e => (Thrown e, emit (EvEmbedQuery chunk) w)
    end.
Proof.
  intros Henv. cbn [indexChunks]. unfold bind at 1, embedQuery.
  destruct (svc_embedQuery svc (trace w) chunk) as [v|e]; [|reflexivity].
  fold env. rewrite Henv. cbn [negb].
  unfold bind, ID_unique, createDocument. cbn zeta.
  destruct (svc_database_fault svc _ _); reflexivity.
Qed.

Lemma rows_of_nil file : rows_of cfg file [] ([] : list Row).
Proof. split; [reflexivity | constructor]. Qed.

Lemma rows_of_cons file chunk chunks id v (rows : list Row) :
  rows_of cfg file chunks rows ->
  rows_of cfg file (chunk :: chunks)
    (MkRow (databaseId cfg) (non_null env) id (MkChunk file chunk v) :: rows).
Proof.
  intros [Hc Hf]. split.
  - unfold contents in *. cbn [map row_data content]. now rewrite Hc.
  - constructor; [cbn; auto | exact Hf].
Qed.

(** The loop only ever adds documents, and they are those of the first
    [k] chunks; when it runs to completion, [k] is the number of
    chunks. *)
Lemma indexChunks_prefix file chunks :
  forall w : World,
  exists k rows,
    k <= length chunks
    /\ database (snd (indexChunks cfg svc file chunks w))
       = database w ++ rows
    /\ rows_of cfg file (firstn k chunks) rows
    /\ (fst (indexChunks cfg svc file chunks w) = Returned LoopCompleted ->
        k = length chunks).
Proof.
  induction chunks as [|chunk rest IH]; intros w.
  - exists 0, []. cbn. rewrite app_nil_r.
    repeat split; auto using rows_of_nil.
  - destruct (env_truthy env) eqn:Henv.
    + rewrite (indexChunks_set file chunk rest w Henv).
      destruct (svc_embedQuery svc (trace w) chunk) as [v|e].
      * cbn zeta.
        destruct (svc_database_fault svc _ _) as [e|].
        -- exists 0, []. cbn. rewrite app_nil_r.
           repeat split; auto using rows_of_nil; try lia. discriminate.
        -- match goal with
           | |- context [indexChunks cfg svc file rest ?w1] =>
               destruct (IH w1) as (k & rows & Hk & Hdb & Hrows & Hdone)
           end.
           exists (S k), (MkRow (databaseId cfg) (non_null env)
                            (svc_unique svc (trace (emit (EvEmbedQuery chunk) w)))
                            (MkChunk file chunk v) :: rows).
           repeat split.
           ++ cbn [length]. lia.
           ++ rewrite Hdb. cbn [emit store database].
              rewrite <- app_assoc. reflexivity.
           ++ apply (proj1 (rows_of_cons chunk _ v Hrows)).
           ++ apply (proj2 (rows_of_cons chunk _ v Hrows)).
           ++ intros H. cbn [length]. f_equal. apply Hdone. exact H.
      * exists 0, []. cbn. rewrite app_nil_r.
        repeat split; auto using rows_of_nil; try lia. discriminate.
    + rewrite (indexChunks_unset file chunk rest w Henv).
      exists 0, []. 
      destruct (svc_embedQuery svc (trace w) chunk) as [v|e];
        cbn; rewrite app_nil_r;
        repeat split; auto using rows_of_nil; try lia; discriminate.
Qed.

End Runs.

(** ** Runs of the two entry points *)

(** The text is cut into its first [CHUNK_LIMIT] code units and the chunks
    of the rest. *)
Lemma chunkText_cons (text : jsstring) :
  text <> [] ->
  chunkText text
  = firstn CHUNK_LIMIT text :: chunkText (skipn CHUNK_LIMIT text).
Proof.
  destruct text as [|c s]; [congruence|]. intros _.
  unfold chunkText. apply matchAllUpTo_step. unfold CHUNK_LIMIT. lia.
Qed.

Lemma chunkText_nil : chunkText [] = [].
Proof. reflexivity. Qed.

Lemma chunkText_count (text : jsstring) :
  length (chunkText text) = (length text + 999) / 1000.
Proof.
  unfold chunkText.
  rewrite (@matchAllUpTo_count CHUNK_LIMIT) by (unfold CHUNK_LIMIT; lia).
  unfold CHUNK_LIMIT. f_equal. lia.
Qed.

(** Appending chunks: the loop goes on with the later chunks only when it
    ran through the earlier ones. *)
Lemma indexChunks_app :
  forall (Vector : Type) (cfg : Config) (svc : Services Vector)
         (file : jsstring) (earlier later : list jsstring) (w : World Vector),
    indexChunks cfg svc file (earlier ++ later) w
    = match indexChunks cfg svc file earlier w with
      | (Returned LoopCompleted, w') => indexChunks cfg svc file later w'
      | stopped => stopped
      end.
Proof.
  intros Vector cfg svc file earlier later.
  induction earlier as [|chunk rest IH]; intros w; [reflexivity|].
  destruct (env_truthy (NEXT_PUBLIC_APPWRITE_VECTOR_COLLECTION cfg)) eqn:Henv.
  - rewrite <- app_comm_cons, !indexChunks_set by exact Henv.
    destruct (svc_embedQuery svc (trace w) chunk) as [v|e]; [|reflexivity].
    cbn zeta. destruct (svc_database_fault svc _ _); [reflexivity|].
    apply IH.
  - rewrite <- app_comm_cons, !indexChunks_unset by exact Henv.
    destruct (svc_embedQuery svc (trace w) chunk); reflexivity.
Qed.

(** When no embedding and no database request fails and the collection is
    configured, the loop runs to its end. *)
Lemma indexChunks_completes :
  forall (Vector : Type) (cfg : Config) (svc : Services Vector)
         (file : jsstring) (chunks : list jsstring),
    env_truthy (NEXT_PUBLIC_APPWRITE_VECTOR_COLLECTION cfg) = true ->
    (forall tr text, is_returned (svc_embedQuery svc tr text) = true) ->
    (forall tr ev, svc_database_fault svc tr ev = None) ->
    forall w : World Vector,
      fst (indexChunks cfg svc file chunks w) = Returned LoopCompleted.
Proof.
  intros Vector cfg svc file chunks Henv Hembed Hdb.
  induction chunks as [|chunk rest IH]; intros w; [reflexivity|].
  rewrite indexChunks_set by exact Henv.
  specialize (Hembed (trace w) chunk).
  destruct (svc_embedQuery svc (trace w) chunk) as [v|e];
    [|discriminate Hembed].
  cbn zeta. rewrite Hdb. apply IH.
Qed.

(** Whatever happens inside the [try], the [catch] turns it into a normal
    return. *)
Lemma indexDocument_catches_all :
  forall (Vector : Type) (cfg : Config) (svc : Services Vector)
         (file bucketFileId mimeType : jsstring) (w : World Vector),
    svc_createAdminClient svc = None ->
    fst (indexDocument cfg svc file bucketFileId mimeType w) = Returned tt.
Proof.
  intros Vector cfg svc file bucketFileId mimeType w Hclient.
  unfold indexDocument, bind at 1, createAdminClient. rewrite Hclient.
  unfold try_catch.
  match goal with
  | |- context [match ?body w with _ => _ end] =>
      destruct (body w) as [[[]|e] w']
  end; reflexivity.
Qed.

(** The run of [indexDocument] up to the loop, when the client is built,
    the download succeeds and the text is extracted. *)
Lemma indexDocument_reaches_loop :
  forall (Vector : Type) (cfg : Config) (svc : Services Vector)
         (file bucketFileId mimeType : jsstring) (w : World Vector)
         (fileBuffer : bytes) (text : jsstring),
    svc_createAdminClient svc = None ->
    svc_getFileDownload svc
      (trace w ++ [EvConsole (LogStartingIndexing file)])
      (bucketId cfg) bucketFileId = Returned fileBuffer ->
    extractTextFromFile svc fileBuffer mimeType = Returned text ->
    indexDocument cfg svc file bucketFileId mimeType w
    = let w3 :=
        MkWorld (database w)
          (trace w ++ [EvConsole (LogStartingIndexing file);
                       EvGetFileDownload (bucketId cfg) bucketFileId;
                       EvConsole (LogExtracted (length text)
                                    (length (chunkText text)))]) in
      match indexChunks cfg svc file (chunkText text) w3 with
      | (Returned LoopCompleted, w') =>
          (Returned tt, emit (EvConsole (LogIndexed file)) w')
      | (Returned LoopReturn, w') => (Returned tt, w')
      | (Thrown e, w') => (Returned tt, emit (EvConsole (ErrorIndexing e)) w')
      end.
Proof.
  intros Vector cfg svc file bucketFileId mimeType w fileBuffer text
    Hclient Hdownload Hextract.
  unfold indexDocument, bind at 1, createAdminClient. rewrite Hclient.
  unfold try_catch, bind at 1, console.
  unfold bind at 1, getFileDownload. cbn [emit trace database].
  rewrite Hdownload.
  unfold bind at 1, lift. rewrite Hextract.
  unfold bind at 1. cbn [emit trace database].
  unfold bind at 1. cbn zeta.
  unfold emit. cbn [trace database].
  rewrite <- !app_assoc. cbn [app].
  destruct (indexChunks cfg svc file (chunkText text) _) as [[[]|e] w'];
    reflexivity.
Qed.

(** What [listDocuments] returns when the database serves the request. *)
Lemma retrieve_served :
  forall (Vector : Type) (cfg : Config) (svc : Services Vector)
         (collection query : jsstring) (w : World Vector)
         (documents : list (Row Vector)),
    fst (retrieve cfg svc collection query w) = Returned documents ->
    documents
    = firstn (svc_page_limit svc)
        (filter (selected svc (databaseId cfg) collection
                   [Query_contains (lit "content") query])
           (database w)).
Proof.
  intros Vector cfg svc collection query w documents.
  unfold retrieve, listDocuments. cbn zeta.
  destruct (svc_database_fault svc _ _); cbn [fst]; congruence.
Qed.

Lemma In_firstn (A : Type) (n : nat) (l : list A) (x : A) :
  In x (firstn n l) -> In x l.
Proof.
  intros H. rewrite <- (firstn_skipn n l). apply in_or_app. now left.
Qed.

(** The run of the tool once the client is built and the collection is
    configured. *)
Lemma searchFileContentTool_configured :
  forall (Vector : Type) (cfg : Config) (svc : Services Vector)
         (query : jsstring) (w : World Vector),
    svc_createAdminClient svc = None ->
    env_truthy (NEXT_PUBLIC_APPWRITE_VECTOR_COLLECTION cfg) = true ->
    searchFileContentTool cfg svc query w
    = let w1 := emit (EvEmbedQuery query) w in
      let failed e w' :=
        (Returned SEARCH_FAILED, emit (EvConsole (ErrorSearch e)) w') in
      match svc_embedQuery svc (trace w) query with
      | Thrown e => failed e w1
      | Returned _ =>
          match retrieve cfg svc
                  (non_null (NEXT_PUBLIC_APPWRITE_VECTOR_COLLECTION cfg))
                  query w1 with
          | (Thrown e, w2) => failed e w2
          | (Returned documents, w2) =>
              (Returned (or_else (join SEPARATOR (contents documents))
                           NO_RELEVANT_CONTENT), w2)
          end
      end.
Proof.
  intros Vector cfg svc query w Hclient Henv.
  unfold searchFileContentTool, bind at 1, createAdminClient.
  rewrite Hclient, Henv. cbn [negb].
  unfold try_catch, bind at 1, embedQuery.
  destruct (svc_embedQuery svc (trace w) query) as [v|e]; [|reflexivity].
  cbn zeta. unfold bind at 1.
  destruct (retrieve cfg svc _ query _) as [[documents|e] w2]; reflexivity.
Qed.

Lemma embed_calls_app (Vector : Type) (tr1 tr2 : list (Event Vector)) :
  embed_calls (tr1 ++ tr2) = embed_calls tr1 ++ embed_calls tr2.
Proof. apply flat_map_app. Qed.

(** A loop that ran to its end has embedded every chunk once, in order. *)
Lemma indexChunks_completed_calls :
  forall (Vector : Type) (cfg : Config) (svc : Services Vector)
         (file : jsstring) (chunks : list jsstring) (w : World Vector),
    fst (indexChunks cfg svc file chunks w) = Returned LoopCompleted ->
    embed_calls (trace (snd (indexChunks cfg svc file chunks w)))
    = embed_calls (trace w) ++ chunks.
Proof.
  intros Vector cfg svc file chunks.
  induction chunks as [|chunk rest IH]; intros w.
  - intros _. cbn. rewrite app_nil_r. reflexivity.
  - destruct (env_truthy (NEXT_PUBLIC_APPWRITE_VECTOR_COLLECTION cfg))
      eqn:Henv.
    + rewrite indexChunks_set by exact Henv.
      destruct (svc_embedQuery svc (trace w) chunk) as [v|e];
        [|discriminate].
      cbn zeta. destruct (svc_database_fault svc _ _); [discriminate|].
      intros Hdone. rewrite (IH _ Hdone).
      cbn [emit store trace]. rewrite !embed_calls_app. cbn.
      rewrite app_nil_r, <- app_assoc. reflexivity.
    + rewrite indexChunks_unset by exact Henv.
      destruct (svc_embedQuery svc (trace w) chunk); discriminate.
Qed.

(** The turn of the loop on a chunk that cannot be embedded, or that is
    embedded and cannot be stored: the error is thrown, the chunk has been
    embedded once, nothing is written and no later chunk is looked at. *)
Lemma indexChunks_failing_turn :
  forall (Vector : Type) (cfg : Config) (svc : Services Vector)
         (file failing : jsstring) (later : list jsstring) (w : World Vector)
         (e : Error),
    let embedded := trace w ++ [EvEmbedQuery failing] in
    (svc_embedQuery svc (trace w) failing = Thrown e
     \/ exists v,
          env_truthy (NEXT_PUBLIC_APPWRITE_VECTOR_COLLECTION cfg) = true
          /\ svc_embedQuery svc (trace w) failing = Returned v
          /\ svc_database_fault svc embedded
               (EvCreateDocument (databaseId cfg)
                  (non_null (NEXT_PUBLIC_APPWRITE_VECTOR_COLLECTION cfg))
                  (svc_unique svc embedded) (MkChunk file failing v))
             = Some e) ->
    exists w',
      indexChunks cfg svc file (failing :: later) w = (Thrown e, w')
      /\ database w' = database w
      /\ embed_calls (trace w') = embed_calls (trace w) ++ [failing].
Proof.
  intros Vector cfg svc file failing later w e embedded Hfail.
  destruct Hfail as [Hembed|(v & Henv & Hembed & Hfault)].
  - exists (emit (EvEmbedQuery failing) w).
    split; [|split].
    + destruct (env_truthy (NEXT_PUBLIC_APPWRITE_VECTOR_COLLECTION cfg))
        eqn:Henv.
      * rewrite indexChunks_set by exact Henv. rewrite Hembed. reflexivity.
      * rewrite indexChunks_unset by exact Henv. rewrite Hembed.
        reflexivity.
    + reflexivity.
    + cbn [emit trace]. rewrite embed_calls_app. reflexivity.
  - eexists. split; [|split].
    + rewrite indexChunks_set by exact Henv. rewrite Hembed. cbn zeta.
      cbn [emit trace]. fold embedded. rewrite Hfault. reflexivity.
    + reflexivity.
    + cbn [emit trace]. rewrite !embed_calls_app. cbn.
      rewrite app_nil_r. reflexivity.
Qed.

(** ** The statements of the specification *)

(** *** Isolation of the search *)

(** C1 as stated fails: with the chunks of two users' files in the
    collection and a user who may only see [fileA], the search for
    "report" retrieves the chunk of [fileB] as well and returns its
    content. *)
Lemma search_isolation_counterexample :
  let accessible := [lit "fileA"] in
  let svc := Fixture.healthy [] in
  let query := lit "report" in
  let w := Fixture.two_tenants in
  exists documents,
    fst (retrieve Fixture.cfg svc (lit "file_embeddings") query
           (emit (EvEmbedQuery query) w)) = Returned documents
    /\ ~ owned_by accessible documents
    /\ fst (searchFileContentTool Fixture.cfg svc query w)
       = Returned (join SEPARATOR (contents documents))
    /\ join SEPARATOR (contents documents)
       = lit "quarterly report of Alice" ++ SEPARATOR
           ++ lit "salary report of Bob".
Proof.
  cbv zeta.
  exists [Fixture.chunk_row "1" "fileA" "quarterly report of Alice";
          Fixture.chunk_row "2" "fileB" "salary report of Bob"].
  split; [vm_compute; reflexivity|].
  split; [|split; vm_compute; reflexivity].
  intros Howned. inversion Howned as [|d rest _ Hrest]; subst.
  inversion Hrest as [|d' rest' Hbob _]; subst.
  destruct Hbob as [Hbob|[]]. vm_compute in Hbob. discriminate Hbob.
Qed.

(** C1, amended. The tool takes no user and no set of file ids and
    applies no owner filter: its answer is made of the contents of the
    documents the database returns for the query
    [contains("content", query)] on the configured collection.  Every
    returned document is a stored document of that collection that
    satisfies the query, and when the matching documents fit in one page,
    every such document is returned, whatever file it belongs to. *)
Theorem search_returns_every_match :
  forall (Vector : Type) (cfg : Config) (svc : Services Vector)
         (query : jsstring) (w : World Vector) (queryVector : Vector)
         (documents : list (Row Vector)),
    let collection :=
      non_null (NEXT_PUBLIC_APPWRITE_VECTOR_COLLECTION cfg) in
    let contains := Query_contains (lit "content") query in
    svc_createAdminClient svc = None ->
    env_truthy (NEXT_PUBLIC_APPWRITE_VECTOR_COLLECTION cfg) = true ->
    svc_embedQuery svc (trace w) query = Returned queryVector ->
    fst (retrieve cfg svc collection query (emit (EvEmbedQuery query) w))
    = Returned documents ->
    fst (searchFileContentTool cfg svc query w)
    = Returned (or_else (join SEPARATOR (contents documents))
                  NO_RELEVANT_CONTENT)
    /\ (forall d, In d documents ->
          In d (database w)
          /\ in_collection (databaseId cfg) collection d = true
          /\ svc_matches svc contains (row_data d) = true)
    /\ (length (filter (selected svc (databaseId cfg) collection [contains])
                  (database w)) <= svc_page_limit svc ->
        forall d, In d (database w) ->
          in_collection (databaseId cfg) collection d = true ->
          svc_matches svc contains (row_data d) = true ->
          In d documents).
Proof.
  intros Vector cfg svc query w queryVector documents collection contains
    Hclient Henv Hembed Hretrieve.
  split; [|split].
  - rewrite (searchFileContentTool_configured cfg svc query w Hclient Henv).
    cbn zeta. rewrite Hembed. fold collection.
    destruct (retrieve cfg svc collection query _) as [[docs|e] w2];
      cbn [fst] in Hretrieve; [|discriminate Hretrieve].
    injection Hretrieve as ->. reflexivity.
  - intros d Hd. apply retrieve_served in Hretrieve. subst documents.
    apply In_firstn in Hd. apply filter_In in Hd. destruct Hd as [Hin Hsel].
    unfold selected in Hsel. cbn [forallb] in Hsel.
    rewrite andb_true_r in Hsel. apply andb_true_iff in Hsel.
    cbn [emit database] in Hin. tauto.
  - intros Hpage d Hin Hcoll Hmatch.
    apply retrieve_served in Hretrieve. subst documents.
    rewrite firstn_all2 by exact Hpage.
    apply filter_In. split; [exact Hin|].
    unfold selected. cbn [forallb]. fold contains.
    rewrite Hcoll, Hmatch. reflexivity.
Qed.

(** The two-tenant collection: both matching chunks are returned. *)
Lemma search_returns_every_match_witness :
  let cfg := Fixture.cfg in
  let svc := Fixture.healthy [] in
  let query := lit "report" in
  let w := Fixture.two_tenants in
  let documents := database Fixture.two_tenants in
  let collection :=
    non_null (NEXT_PUBLIC_APPWRITE_VECTOR_COLLECTION cfg) in
  let contains := Query_contains (lit "content") query in
  fst (searchFileContentTool cfg svc query w)
  = Returned (or_else (join SEPARATOR (contents documents))
                NO_RELEVANT_CONTENT)
  /\ (forall d, In d documents ->
        In d (database w)
        /\ in_collection (databaseId cfg) collection d = true
        /\ svc_matches svc contains (row_data d) = true)
  /\ (length (filter (selected svc (databaseId cfg) collection [contains])
                (database w)) <= svc_page_limit svc ->
      forall d, In d (database w) ->
        in_collection (databaseId cfg) collection d = true ->
        svc_matches svc contains (row_data d) = true ->
        In d documents).
Proof.
  apply (@search_returns_every_match Fixture.Vec Fixture.cfg
           (Fixture.healthy []) (lit "report") Fixture.two_tenants
           (Fixture.embed_length (lit "report"))
           (database Fixture.two_tenants));
    reflexivity.
Defined.

(** *** Size and order of the search result *)

(** C2 as stated fails: with six matching chunks in the collection and
    topK = 5 (the default of the specification), the tool returns the
    contents of all six, in the order of the collection. *)
Lemma search_topK_counterexample :
  let topK := 5 in
  let svc := Fixture.healthy [] in
  let query := lit "report" in
  let w := Fixture.six_matches in
  exists documents,
    fst (retrieve Fixture.cfg svc (lit "file_embeddings") query
           (emit (EvEmbedQuery query) w)) = Returned documents
    /\ fst (searchFileContentTool Fixture.cfg svc query w)
       = Returned (join SEPARATOR (contents documents))
    /\ documents = database w
    /\ length (contents documents) = 6
    /\ ~ length (contents documents) <= topK.
Proof.
  cbv zeta. exists (database Fixture.six_matches).
  split; [vm_compute; reflexivity|].
  split; [vm_compute; reflexivity|].
  split; [reflexivity|].
  split; [reflexivity|].
  cbn. lia.
Qed.

(** C2, amended. The tool takes the query string only, neither a query
    vector nor a set of file ids nor topK, and computes no score.  When no
    call fails it returns one string: the contents of the first page of
    the documents of the configured collection that satisfy
    [contains("content", query)], in the order of the collection, joined
    by a line of three dashes (or the no-content message when that string
    is empty).  The number of contents is at most the page size of the
    database. *)
Theorem search_returns_first_page :
  forall (Vector : Type) (cfg : Config) (svc : Services Vector)
         (query : jsstring) (w : World Vector) (queryVector : Vector),
    let collection :=
      non_null (NEXT_PUBLIC_APPWRITE_VECTOR_COLLECTION cfg) in
    let contains := Query_contains (lit "content") query in
    svc_createAdminClient svc = None ->
    env_truthy (NEXT_PUBLIC_APPWRITE_VECTOR_COLLECTION cfg) = true ->
    svc_embedQuery svc (trace w) query = Returned queryVector ->
    svc_database_fault svc (trace w ++ [EvEmbedQuery query])
      (EvListDocuments (databaseId cfg) collection [contains]) = None ->
    let documents :=
      firstn (svc_page_limit svc)
        (filter (selected svc (databaseId cfg) collection [contains])
           (database w)) in
    fst (searchFileContentTool cfg svc query w)
    = Returned (or_else (join SEPARATOR (contents documents))
                  NO_RELEVANT_CONTENT)
    /\ length (contents documents) <= svc_page_limit svc.
Proof.
  intros Vector cfg svc query w queryVector collection contains
    Hclient Henv Hembed Hserved documents.
  split.
  - rewrite (searchFileContentTool_configured cfg svc query w Hclient Henv).
    cbn zeta. rewrite Hembed. fold collection.
    unfold retrieve, listDocuments. cbn zeta. cbn [emit trace database].
    fold contains. rewrite Hserved. reflexivity.
  - rewrite contents_length. subst documents.
    rewrite length_firstn. apply Nat.le_min_l.
Qed.

(** Six matching chunks fit in one page of 25: all six are returned. *)
Lemma search_returns_first_page_witness :
  let cfg := Fixture.cfg in
  let svc := Fixture.healthy [] in
  let query := lit "report" in
  let w := Fixture.six_matches in
  let collection :=
    non_null (NEXT_PUBLIC_APPWRITE_VECTOR_COLLECTION cfg) in
  let contains := Query_contains (lit "content") query in
  let documents :=
    firstn (svc_page_limit svc)
      (filter (selected svc (databaseId cfg) collection [contains])
         (database w)) in
  fst (searchFileContentTool cfg svc query w)
  = Returned (or_else (join SEPARATOR (contents documents))
                NO_RELEVANT_CONTENT)
  /\ length (contents documents) <= svc_page_limit svc.
Proof.
  apply (@search_returns_first_page Fixture.Vec Fixture.cfg
           (Fixture.healthy []) (lit "report") Fixture.six_matches
           (Fixture.embed_length (lit "report")));
    reflexivity.
Defined.

(** *** Chunk cap of the indexing *)

(** C3 as stated fails: for a text of 80 chunks and a maximum of 50 (the
    scenario of the specification), [indexDocument] writes 80 documents,
    and its result is the value of a function without [return] value: it
    carries no count and no truncation flag. *)
Lemma indexDocument_cap_counterexample :
  let blob := Fixture.ascii_blob "x" 80000 in
  let run :=
    indexDocument Fixture.cfg (Fixture.healthy blob) (lit "file1")
      (lit "blob1") (lit "text/plain") Fixture.empty_world in
  length (chunkText (Fixture.decode_ascii blob)) = 80
  /\ length (database (snd run)) = 80
  /\ ~ length (database (snd run)) <= 50
  /\ fst run = Returned tt.
Proof.
  cbv zeta.
  assert (H : length (database (snd
                (indexDocument Fixture.cfg
                   (Fixture.healthy (Fixture.ascii_blob "x" 80000))
                   (lit "file1") (lit "blob1") (lit "text/plain")
                   Fixture.empty_world))) = 80)
    by (vm_compute; reflexivity).
  rewrite H.
  split; [vm_compute; reflexivity|].
  split; [reflexivity|].
  split; [lia | vm_compute; reflexivity].
Qed.

(** C3, amended. [indexDocument] has no maximum number of chunks and
    returns no value: when the collection is configured and no call fails,
    it writes one document for every chunk of the text, in the order of
    the text, so as many documents as the length of the text divided by
    1000, rounded up. *)
Theorem indexDocument_indexes_every_chunk :
  forall (Vector : Type) (cfg : Config) (svc : Services Vector)
         (file bucketFileId mimeType : jsstring) (w : World Vector)
         (fileBuffer : bytes) (text : jsstring),
    svc_createAdminClient svc = None ->
    env_truthy (NEXT_PUBLIC_APPWRITE_VECTOR_COLLECTION cfg) = true ->
    svc_getFileDownload svc
      (trace w ++ [EvConsole (LogStartingIndexing file)])
      (bucketId cfg) bucketFileId = Returned fileBuffer ->
    extractTextFromFile svc fileBuffer mimeType = Returned text ->
    (forall tr chunk, is_returned (svc_embedQuery svc tr chunk) = true) ->
    (forall tr ev, svc_database_fault svc tr ev = None) ->
    let run := indexDocument cfg svc file bucketFileId mimeType w in
    fst run = Returned tt
    /\ exists rows,
         database (snd run) = database w ++ rows
         /\ rows_of cfg file (chunkText text) rows
         /\ length rows = (length text + 999) / 1000.
Proof.
  intros Vector cfg svc file bucketFileId mimeType w fileBuffer text
    Hclient Henv Hdownload Hextract Hembed Hdb run.
  split; [apply indexDocument_catches_all; exact Hclient|].
  subst run.
  rewrite (indexDocument_reaches_loop cfg svc file bucketFileId mimeType w
             Hclient Hdownload Hextract).
  cbn zeta.
  match goal with
  | |- context [indexChunks cfg svc file (chunkText text) ?w3] =>
      pose proof (indexChunks_completes cfg svc file (chunkText text)
                    Henv Hembed Hdb w3) as Hdone;
      destruct (indexChunks_prefix cfg svc file (chunkText text) w3)
        as (k & rows & _ & Hrows & Hof & Hk);
      destruct (indexChunks cfg svc file (chunkText text) w3)
        as [[[]|e] w']
  end; cbn [fst snd] in *; try discriminate Hdone.
  specialize (Hk eq_refl). subst k. rewrite firstn_all in Hof.
  exists rows. cbn [emit database]. repeat split; try apply Hof; auto.
  destruct Hof as [Hcontents _].
  rewrite <- (contents_length rows), Hcontents.
  apply chunkText_count.
Qed.

(** A text of 2500 code units is written as three documents. *)
Lemma indexDocument_indexes_every_chunk_witness :
  let blob := Fixture.ascii_blob "x" 2500 in
  let text := Fixture.decode_ascii blob in
  let w := Fixture.two_tenants in
  let run :=
    indexDocument Fixture.cfg (Fixture.healthy blob) (lit "file1")
      (lit "blob1") (lit "text/plain") w in
  fst run = Returned tt
  /\ exists rows,
       database (snd run) = database w ++ rows
       /\ rows_of Fixture.cfg (lit "file1") (chunkText text) rows
       /\ length rows = (length text + 999) / 1000.
Proof.
  apply (@indexDocument_indexes_every_chunk Fixture.Vec Fixture.cfg
           (Fixture.healthy (Fixture.ascii_blob "x" 2500))
           (lit "file1") (lit "blob1") (lit "text/plain") Fixture.two_tenants
           (Fixture.ascii_blob "x" 2500)
           (Fixture.decode_ascii (Fixture.ascii_blob "x" 2500)));
    try reflexivity.
Defined.

(** *** A failing chunk *)

(** C4 as stated fails: of three chunks, the embedding model rejects the
    second and would accept the two others; [indexDocument] writes the
    first chunk only.  The third chunk is never embedded or written. *)
Lemma indexDocument_skip_counterexample :
  let A := repeat 97%N 1000 in
  let B := repeat 98%N 1000 in
  let C := repeat 99%N 1000 in
  let blob :=
    Fixture.ascii_blob "a" 1000 ++ Fixture.ascii_blob "b" 1000
      ++ Fixture.ascii_blob "c" 1000 in
  let svc := Fixture.embedding_rejects (fun text => startsWith text [98%N]) blob in
  let run :=
    indexDocument Fixture.cfg svc (lit "file1") (lit "blob1")
      (lit "text/plain") Fixture.empty_world in
  chunkText (Fixture.decode_ascii blob) = [A; B; C]
  /\ (forall tr, is_returned (svc_embedQuery svc tr A) = true)
  /\ (forall tr, is_returned (svc_embedQuery svc tr B) = false)
  /\ (forall tr, is_returned (svc_embedQuery svc tr C) = true)
  /\ fst run = Returned tt
  /\ contents (database (snd run)) = [A]
  /\ ~ In C (contents (database (snd run)))
  /\ ~ In (EvEmbedQuery C) (trace (snd run)).
Proof.
  cbv zeta.
  split; [vm_compute; reflexivity|].
  split; [intros tr; vm_compute; reflexivity|].
  split; [intros tr; vm_compute; reflexivity|].
  split; [intros tr; vm_compute; reflexivity|].
  split; [vm_compute; reflexivity|].
  assert (Hdb : contents (database (snd
            (indexDocument Fixture.cfg
               (Fixture.embedding_rejects
                  (fun text => startsWith text [98%N])
                  (Fixture.ascii_blob "a" 1000 ++ Fixture.ascii_blob "b" 1000
                     ++ Fixture.ascii_blob "c" 1000))
               (lit "file1") (lit "blob1") (lit "text/plain")
               Fixture.empty_world))) = [repeat 97%N 1000])
    by (vm_compute; reflexivity).
  rewrite Hdb.
  split; [reflexivity|].
  split.
  - intros [H|[]]. vm_compute in H. discriminate H.
  - intros H. vm_compute in H.
    repeat (destruct H as [H|H]; [discriminate H|]). exact H.
Qed.

(** C4, amended. A failure while embedding or persisting a chunk ends
    the loop.  When the chunks before it went through and the embedding
    model throws on the chunk, or the chunk is embedded and the database
    refuses its document, then the documents of the chunks before it stay
    written and nothing else is written (neither the failing chunk nor a
    later one); the chunks sent to the embedding model are those before
    it and the failing chunk itself, so no later chunk is embedded; the
    error is the last thing logged and [indexDocument] returns normally,
    without a value. *)
Theorem indexDocument_stops_at_failure :
  forall (Vector : Type) (cfg : Config) (svc : Services Vector)
         (file bucketFileId mimeType : jsstring) (w : World Vector)
         (fileBuffer : bytes) (text : jsstring)
         (done later : list jsstring) (failing : jsstring) (e : Error),
    let collection :=
      non_null (NEXT_PUBLIC_APPWRITE_VECTOR_COLLECTION cfg) in
    let w3 :=
      MkWorld (database w)
        (trace w ++ [EvConsole (LogStartingIndexing file);
                     EvGetFileDownload (bucketId cfg) bucketFileId;
                     EvConsole (LogExtracted (length text)
                                  (length (chunkText text)))]) in
    let w4 := snd (indexChunks cfg svc file done w3) in
    let embedded := trace w4 ++ [EvEmbedQuery failing] in
    svc_createAdminClient svc = None ->
    svc_getFileDownload svc
      (trace w ++ [EvConsole (LogStartingIndexing file)])
      (bucketId cfg) bucketFileId = Returned fileBuffer ->
    extractTextFromFile svc fileBuffer mimeType = Returned text ->
    chunkText text = done ++ failing :: later ->
    fst (indexChunks cfg svc file done w3) = Returned LoopCompleted ->
    (svc_embedQuery svc (trace w4) failing = Thrown e
     \/ exists v,
          env_truthy (NEXT_PUBLIC_APPWRITE_VECTOR_COLLECTION cfg) = true
          /\ svc_embedQuery svc (trace w4) failing = Returned v
          /\ svc_database_fault svc embedded
               (EvCreateDocument (databaseId cfg) collection
                  (svc_unique svc embedded) (MkChunk file failing v))
             = Some e) ->
    let run := indexDocument cfg svc file bucketFileId mimeType w in
    fst run = Returned tt
    /\ (exists rows,
           database (snd run) = database w ++ rows
           /\ rows_of cfg file done rows)
    /\ embed_calls (trace (snd run))
       = embed_calls (trace w) ++ done ++ [failing]
    /\ (exists tr, trace (snd run) = tr ++ [EvConsole (ErrorIndexing e)]).
Proof.
  intros Vector cfg svc file bucketFileId mimeType w fileBuffer text
    done later failing e collection w3 w4 embedded Hclient Hdownload
    Hextract Hchunks Hdone Hfail run.
  split; [apply indexDocument_catches_all; exact Hclient|].
  destruct (indexChunks_failing_turn cfg svc file failing later w4 Hfail)
    as (w5 & Hturn & Hdb5 & Hcalls5).
  assert (Hcalls4 : embed_calls (trace w4) = embed_calls (trace w) ++ done).
  { subst w4. rewrite (indexChunks_completed_calls cfg svc file done w3 Hdone).
    subst w3. cbn [trace]. rewrite embed_calls_app. cbn.
    rewrite app_nil_r. reflexivity. }
  assert (Hrun : snd run = emit (EvConsole (ErrorIndexing e)) w5).
  { subst run.
    rewrite (indexDocument_reaches_loop cfg svc file bucketFileId mimeType w
               Hclient Hdownload Hextract).
    cbn zeta. fold w3. rewrite Hchunks, indexChunks_app.
    destruct (indexChunks cfg svc file done w3) as [[[]|e'] w4'] eqn:Hloop;
      cbn [fst] in Hdone; try discriminate Hdone.
    subst w4. cbn [snd] in Hturn. rewrite Hturn. reflexivity. }
  rewrite Hrun. cbn [emit database trace].
  split; [|split].
  - destruct (indexChunks_prefix cfg svc file done w3)
      as (k & rows & Hk & Hdb & Hof & Hcomplete).
    specialize (Hcomplete Hdone). subst k. rewrite firstn_all in Hof.
    exists rows. split; [|exact Hof].
    rewrite Hdb5. exact Hdb.
  - rewrite embed_calls_app, Hcalls5, Hcalls4. cbn.
    rewrite app_nil_r, <- app_assoc. reflexivity.
  - eexists. reflexivity.
Qed.

(** Both kinds of failure.  Three chunks, the second rejected by the
    embedding model: the first is written, the first two are embedded, the
    third is neither.  Two chunks and a database that refuses every
    document: the first chunk is embedded, nothing is written, the second
    chunk is not embedded. *)
Lemma indexDocument_stops_at_failure_witness :
  (let blob :=
     Fixture.ascii_blob "a" 1000 ++ Fixture.ascii_blob "b" 1000
       ++ Fixture.ascii_blob "c" 1000 in
   let svc :=
     Fixture.embedding_rejects (fun text => startsWith text [98%N]) blob in
   let w := Fixture.empty_world in
   let run :=
     indexDocument Fixture.cfg svc (lit "file1") (lit "blob1")
       (lit "text/plain") w in
   fst run = Returned tt
   /\ (exists rows,
          database (snd run) = database w ++ rows
          /\ rows_of Fixture.cfg (lit "file1") [repeat 97%N 1000] rows)
   /\ embed_calls (trace (snd run))
      = embed_calls (trace w) ++ [repeat 97%N 1000] ++ [repeat 98%N 1000]
   /\ (exists tr,
          trace (snd run)
          = tr ++ [EvConsole
                     (ErrorIndexing (MkError (lit "embedding failed")))]))
  /\ (let blob :=
        Fixture.ascii_blob "a" 1000 ++ Fixture.ascii_blob "b" 1000 in
      let svc := Fixture.database_down blob in
      let w := Fixture.two_tenants in
      let run :=
        indexDocument Fixture.cfg svc (lit "file1") (lit "blob1")
          (lit "text/plain") w in
      fst run = Returned tt
      /\ (exists rows,
             database (snd run) = database w ++ rows
             /\ rows_of Fixture.cfg (lit "file1") [] rows)
      /\ embed_calls (trace (snd run))
         = embed_calls (trace w) ++ [] ++ [repeat 97%N 1000]
      /\ (exists tr,
             trace (snd run)
             = tr ++ [EvConsole
                        (ErrorIndexing
                           (MkError (lit "database unreachable")))])).
Proof.
  split; cbv zeta.
  - apply (@indexDocument_stops_at_failure Fixture.Vec Fixture.cfg
             (Fixture.embedding_rejects (fun text => startsWith text [98%N])
                (Fixture.ascii_blob "a" 1000 ++ Fixture.ascii_blob "b" 1000
                   ++ Fixture.ascii_blob "c" 1000))
             (lit "file1") (lit "blob1") (lit "text/plain")
             Fixture.empty_world
             (Fixture.ascii_blob "a" 1000 ++ Fixture.ascii_blob "b" 1000
                ++ Fixture.ascii_blob "c" 1000)
             (Fixture.decode_ascii
                (Fixture.ascii_blob "a" 1000 ++ Fixture.ascii_blob "b" 1000
                   ++ Fixture.ascii_blob "c" 1000))
             [repeat 97%N 1000] [repeat 99%N 1000] (repeat 98%N 1000)
             (MkError (lit "embedding failed")));
      try (vm_compute; reflexivity).
    left. vm_compute. reflexivity.
  - apply (@indexDocument_stops_at_failure Fixture.Vec Fixture.cfg
             (Fixture.database_down
                (Fixture.ascii_blob "a" 1000 ++ Fixture.ascii_blob "b" 1000))
             (lit "file1") (lit "blob1") (lit "text/plain")
             Fixture.two_tenants
             (Fixture.ascii_blob "a" 1000 ++ Fixture.ascii_blob "b" 1000)
             (Fixture.decode_ascii
                (Fixture.ascii_blob "a" 1000 ++ Fixture.ascii_blob "b" 1000))
             [] [repeat 98%N 1000] (repeat 97%N 1000)
             (MkError (lit "database unreachable")));
      try (vm_compute; reflexivity).
    right. exists (Fixture.embed_length (repeat 97%N 1000)).
    repeat split; vm_compute; reflexivity.
Defined.

(** The other kind of failure: the database refuses every document.  The
    first chunk is embedded, its document is refused, nothing is written
    and the second chunk is never embedded. *)
Example indexDocument_stops_at_refused_write :
  let blob := Fixture.ascii_blob "a" 1000 ++ Fixture.ascii_blob "b" 1000 in
  let run :=
    indexDocument Fixture.cfg (Fixture.database_down blob) (lit "file1")
      (lit "blob1") (lit "text/plain") Fixture.empty_world in
  fst run = Returned tt
  /\ database (snd run) = []
  /\ embed_calls (trace (snd run)) = [repeat 97%N 1000]
  /\ last (trace (snd run)) (EvConsole WarnCollectionNotSet)
     = EvConsole (ErrorIndexing (MkError (lit "database unreachable"))).
Proof. cbv zeta. repeat split; vm_compute; reflexivity. Qed.

(** *** Indexing never throws *)

(** C5. The claim is what the comment of line 89 asks for ("Don't throw,
    just log"), and the code misses it: [createAdminClient()] of line 43
    stands before the [try], so when it throws, [indexDocument] throws to
    its caller.  Here the client cannot be built: the call ends with the
    exception, not with a normal return, and nothing is logged. *)
Theorem indexDocument_client_failure_escapes :
  let run :=
    indexDocument Fixture.cfg
      (Fixture.client_down (Fixture.ascii_blob "x" 10)) (lit "file1")
      (lit "blob1") (lit "text/plain") Fixture.two_tenants in
  run = (Thrown (MkError (lit "invalid endpoint")), Fixture.two_tenants)
  /\ fst run <> Returned tt.
Proof. cbv zeta. split; [reflexivity | discriminate]. Qed.

(** What the [try] does cover: once the admin client is built,
    [indexDocument] never throws, whatever the blob store, the extraction,
    the embedding model and the database do. *)
Lemma indexDocument_never_throws :
  forall (Vector : Type) (cfg : Config) (svc : Services Vector)
         (file bucketFileId mimeType : jsstring) (w : World Vector),
    svc_createAdminClient svc = None ->
    fst (indexDocument cfg svc file bucketFileId mimeType w) = Returned tt.
Proof.
  intros Vector cfg svc file bucketFileId mimeType w Hclient.
  apply indexDocument_catches_all. exact Hclient.
Qed.

(** The blob store is unreachable: the download throws and the call still
    returns. *)
Lemma indexDocument_never_throws_witness :
  fst (indexDocument Fixture.cfg Fixture.storage_down
         (lit "file1") (lit "blob1") (lit "application/pdf")
         Fixture.empty_world)
  = Returned tt.
Proof.
  apply (@indexDocument_never_throws Fixture.Vec Fixture.cfg
           Fixture.storage_down).
  reflexivity.
Defined.

(** In general: when building the admin client fails, the failure reaches
    the caller. *)
Remark indexDocument_client_failure :
  forall (Vector : Type) (cfg : Config) (svc : Services Vector)
         (file bucketFileId mimeType : jsstring) (w : World Vector) e,
    svc_createAdminClient svc = Some e ->
    indexDocument cfg svc file bucketFileId mimeType w = (Thrown e, w).
Proof.
  intros. unfold indexDocument, bind at 1, createAdminClient.
  rewrite H. reflexivity.
Qed.

(** *** Overlap of adjacent chunks *)

(** C6 as stated fails: the chunks of a text of two thousand code units
    are its two halves; the last 200 code units of the first are not the
    first 200 of the second, and the two code units around the boundary
    appear together in the text but in neither chunk. *)
Lemma chunkText_overlap_counterexample :
  let text := repeat 97%N 1000 ++ repeat 98%N 1000 in
  let boundary := [97%N; 98%N] in
  text <> []
  /\ chunkText text = [repeat 97%N 1000; repeat 98%N 1000]
  /\ ~ shares_overlap 200 (repeat 97%N 1000) (repeat 98%N 1000)
  /\ Fixture.includes text boundary = true
  /\ existsb (fun chunk => Fixture.includes chunk boundary) (chunkText text)
     = false.
Proof.
  cbv zeta. split; [discriminate|].
  split; [vm_compute; reflexivity|].
  split; [intros (_ & _ & H); vm_compute in H; discriminate H|].
  split; vm_compute; reflexivity.
Qed.

(** C6, amended. The chunks are consecutive slices of the text without
    overlap: put end to end they are the text; every chunk has between 1
    and 1000 code units, every chunk but the last has exactly 1000, and
    their number is the length of the text divided by 1000, rounded up.
    The size is fixed and no chunk repeats a part of its neighbour. *)
Theorem chunkText_consecutive_slices :
  forall text : jsstring,
    concat (chunkText text) = text
    /\ Forall (fun chunk => 1 <= length chunk <= 1000) (chunkText text)
    /\ (forall i chunk,
           nth_error (chunkText text) i = Some chunk ->
           S i < length (chunkText text) ->
           length chunk = 1000)
    /\ length (chunkText text) = (length text + 999) / 1000.
Proof.
  intros text. unfold chunkText.
  assert (Hpos : 0 < CHUNK_LIMIT) by (unfold CHUNK_LIMIT; lia).
  repeat split.
  - apply matchAllUpTo_concat; [exact Hpos | lia].
  - apply (matchAllUpTo_sizes Hpos).
  - intros i chunk Hnth Hlt.
    apply (matchAllUpTo_full Hpos _ _ Hnth Hlt).
  - rewrite (matchAllUpTo_count Hpos) by lia.
    unfold CHUNK_LIMIT. f_equal. lia.
Qed.

(** *** Dispatch on the media type *)

(** C7. Text extraction dispatches on the declared media type: for
    [application/pdf] the result is what the PDF parser gives for the
    buffer, for every type starting with [text/] it is the buffer decoded
    as UTF-8, and for every other type the call throws an error whose
    message says the type is unsupported (it never returns a text, empty or
    not, for such a type). *)
Theorem extractTextFromFile_dispatch :
  forall (Vector : Type) (svc : Services Vector)
         (fileBuffer : bytes) (mimeType : jsstring),
    (mimeType = lit "application/pdf" ->
       extractTextFromFile svc fileBuffer mimeType
       = svc_pdf_parse svc fileBuffer)
    /\ ((exists subtype, mimeType = lit "text/" ++ subtype) ->
       extractTextFromFile svc fileBuffer mimeType
       = Returned (svc_utf8_decode svc fileBuffer))
    /\ (mimeType <> lit "application/pdf" ->
        (forall subtype, mimeType <> lit "text/" ++ subtype) ->
        extractTextFromFile svc fileBuffer mimeType
        = Thrown (MkError (lit "Unsupported file type for indexing: "
                             ++ mimeType))
        /\ is_returned (extractTextFromFile svc fileBuffer mimeType) = false).
Proof.
  intros Vector svc fileBuffer mimeType. unfold extractTextFromFile.
  split; [|split].
  - intros ->. reflexivity.
  - intros [subtype ->].
    destruct (jsstring_eqb _ (lit "application/pdf")) eqn:E.
    + apply jsstring_eqb_eq in E. discriminate E.
    + assert (Hp : startsWith (lit "text/" ++ subtype) (lit "text/") = true)
        by (apply startsWith_prefix; exists subtype; reflexivity).
      rewrite Hp. reflexivity.
  - intros Hpdf Htext.
    apply jsstring_eqb_neq in Hpdf. apply startsWith_not_prefix in Htext.
    rewrite Hpdf, Htext. split; reflexivity.
Qed.

(** A plain text file is decoded, a PNG image is refused. *)
Example extractTextFromFile_text_plain :
  extractTextFromFile (Fixture.healthy []) (Fixture.ascii_blob "x" 3)
    (lit "text/plain")
  = Returned (lit "xxx").
Proof. reflexivity. Qed.

Example extractTextFromFile_image_png :
  extractTextFromFile (Fixture.healthy []) (Fixture.ascii_blob "x" 3)
    (lit "image/png")
  = Thrown (MkError (lit "Unsupported file type for indexing: image/png")).
Proof. reflexivity. Qed.

(** *** No matching chunk *)

(** C8. When the retrieval step returns no document, the tool returns the
    message "No relevant content found in documents.", which is not the
    empty string and differs from the other fixed answers of the tool. *)
Theorem searchFileContentTool_no_match :
  forall (Vector : Type) (cfg : Config) (svc : Services Vector)
         (query : jsstring) (w : World Vector) (queryVector : Vector),
    svc_createAdminClient svc = None ->
    env_truthy (NEXT_PUBLIC_APPWRITE_VECTOR_COLLECTION cfg) = true ->
    svc_embedQuery svc (trace w) query = Returned queryVector ->
    fst (retrieve cfg svc
           (non_null (NEXT_PUBLIC_APPWRITE_VECTOR_COLLECTION cfg)) query
           (emit (EvEmbedQuery query) w)) = Returned [] ->
    fst (searchFileContentTool cfg svc query w)
    = Returned (lit "No relevant content found in documents.")
    /\ lit "No relevant content found in documents." <> []
    /\ lit "No relevant content found in documents." <> SEARCH_FAILED
    /\ lit "No relevant content found in documents." <> NOT_CONFIGURED.
Proof.
  intros Vector cfg svc query w queryVector Hclient Henv Hembed Hnone.
  split; [|repeat split; discriminate].
  rewrite (searchFileContentTool_configured cfg svc query w Hclient Henv).
  cbn zeta. rewrite Hembed.
  destruct (retrieve cfg svc _ query _) as [[documents|e] w2];
    cbn [fst] in Hnone; [|discriminate Hnone].
  injection Hnone as ->. reflexivity.
Qed.

(** No stored chunk mentions "invoice". *)
Lemma searchFileContentTool_no_match_witness :
  fst (searchFileContentTool Fixture.cfg (Fixture.healthy [])
         (lit "invoice") Fixture.two_tenants)
  = Returned (lit "No relevant content found in documents.")
  /\ lit "No relevant content found in documents." <> []
  /\ lit "No relevant content found in documents." <> SEARCH_FAILED
  /\ lit "No relevant content found in documents." <> NOT_CONFIGURED.
Proof.
  apply (@searchFileContentTool_no_match Fixture.Vec Fixture.cfg
           (Fixture.healthy []) (lit "invoice") Fixture.two_tenants
           (Fixture.embed_length (lit "invoice")));
    reflexivity.
Defined.

(** *** The error cases of the search *)

(** C9 as stated fails: [createAdminClient()] of line 98 stands before
    the configuration test and before the [try].  With the collection not
    configured and a client that cannot be built, the tool throws instead
    of returning "Vector search not configured.". *)
Lemma searchFileContentTool_throws_counterexample :
  let run :=
    searchFileContentTool Fixture.cfg_unset (Fixture.client_down [])
      (lit "report") Fixture.two_tenants in
  env_truthy (NEXT_PUBLIC_APPWRITE_VECTOR_COLLECTION Fixture.cfg_unset)
  = false
  /\ run = (Thrown (MkError (lit "invalid endpoint")), Fixture.two_tenants)
  /\ fst run <> Returned NOT_CONFIGURED
  /\ ~ (exists answer, fst run = Returned answer).
Proof.
  cbv zeta. split; [reflexivity|]. split; [reflexivity|].
  split; [discriminate|]. intros [answer H]. discriminate H.
Qed.

(** The answers of the tool once the admin client is built. *)
Lemma searchFileContentTool_answers :
  forall (Vector : Type) (cfg : Config) (svc : Services Vector)
         (query : jsstring) (w : World Vector),
    svc_createAdminClient svc = None ->
    let env := NEXT_PUBLIC_APPWRITE_VECTOR_COLLECTION cfg in
    (exists answer,
        fst (searchFileContentTool cfg svc query w) = Returned answer)
    /\ (env_truthy env = false ->
        searchFileContentTool cfg svc query w = (Returned NOT_CONFIGURED, w))
    /\ (env_truthy env = true ->
        forall e, svc_embedQuery svc (trace w) query = Thrown e ->
        fst (searchFileContentTool cfg svc query w) = Returned SEARCH_FAILED)
    /\ (env_truthy env = true ->
        forall e,
          fst (retrieve cfg svc (non_null env) query
                 (emit (EvEmbedQuery query) w)) = Thrown e ->
        fst (searchFileContentTool cfg svc query w) = Returned SEARCH_FAILED).
Proof.
  intros Vector cfg svc query w Hclient env.
  assert (Hunset : env_truthy env = false ->
            searchFileContentTool cfg svc query w
            = (Returned NOT_CONFIGURED, w)).
  { intros Henv. unfold searchFileContentTool, bind at 1, createAdminClient.
    fold env. rewrite Hclient, Henv. reflexivity. }
  repeat split.
  - destruct (env_truthy env) eqn:Henv.
    + rewrite (searchFileContentTool_configured cfg svc query w Hclient Henv).
      cbn zeta.
      destruct (svc_embedQuery svc (trace w) query) as [v|e];
        [|eexists; reflexivity].
      destruct (retrieve cfg svc _ query _) as [[documents|e] w2];
        eexists; reflexivity.
    + rewrite (Hunset eq_refl). eexists; reflexivity.
  - exact Hunset.
  - intros Henv e Hembed.
    rewrite (searchFileContentTool_configured cfg svc query w Hclient Henv).
    rewrite Hembed. reflexivity.
  - intros Henv e Hstore.
    rewrite (searchFileContentTool_configured cfg svc query w Hclient Henv).
    cbn zeta.
    destruct (svc_embedQuery svc (trace w) query) as [v|e']; [|reflexivity].
    fold env.
    destruct (retrieve cfg svc (non_null env) query _) as [[documents|e'] w2];
      [discriminate Hstore | reflexivity].
Qed.

(** C9, amended. An exception of [createAdminClient()] reaches the
    caller, also when the collection is not configured; this is the only
    exception the tool lets through.  Once the admin client is built the
    tool always returns a string: when the collection is not configured it
    returns "Vector search not configured." and leaves the world as it
    was (no call to the embedding model or to the database); when
    embedding the query throws, or when the database refuses the query, it
    returns "Failed to search document content.". *)
Theorem searchFileContentTool_total :
  forall (Vector : Type) (cfg : Config) (svc : Services Vector)
         (query : jsstring) (w : World Vector),
    let env := NEXT_PUBLIC_APPWRITE_VECTOR_COLLECTION cfg in
    let run := searchFileContentTool cfg svc query w in
    (forall e, svc_createAdminClient svc = Some e -> run = (Thrown e, w))
    /\ (forall e, fst run = Thrown e -> svc_createAdminClient svc = Some e)
    /\ (svc_createAdminClient svc = None ->
        (exists answer, fst run = Returned answer)
        /\ (env_truthy env = false -> run = (Returned NOT_CONFIGURED, w))
        /\ (env_truthy env = true ->
            forall e, svc_embedQuery svc (trace w) query = Thrown e ->
            fst run = Returned SEARCH_FAILED)
        /\ (env_truthy env = true ->
            forall e,
              fst (retrieve cfg svc (non_null env) query
                     (emit (EvEmbedQuery query) w)) = Thrown e ->
            fst run = Returned SEARCH_FAILED)).
Proof.
  intros Vector cfg svc query w env run.
  assert (Hfail : forall e, svc_createAdminClient svc = Some e ->
                            run = (Thrown e, w)).
  { intros e Hclient. subst run.
    unfold searchFileContentTool, bind at 1, createAdminClient.
    rewrite Hclient. reflexivity. }
  split; [exact Hfail|]. split.
  - intros e Hthrown.
    destruct (svc_createAdminClient svc) as [e'|] eqn:Hclient.
    + rewrite (Hfail e' eq_refl) in Hthrown. cbn [fst] in Hthrown.
      congruence.
    + destruct (searchFileContentTool_answers cfg svc query w Hclient)
        as [[answer Hanswer] _].
      subst run. rewrite Hanswer in Hthrown. discriminate Hthrown.
  - intros Hclient.
    apply (searchFileContentTool_answers cfg svc query w Hclient).
Qed.

(** The four cases of the theorem on the two-tenant collection: the
    collection is not configured, the embedding model rejects the query,
    the database is down, the client cannot be built. *)
Example searchFileContentTool_unset :
  searchFileContentTool Fixture.cfg_unset (Fixture.healthy [])
    (lit "report") Fixture.two_tenants
  = (Returned (lit "Vector search not configured."), Fixture.two_tenants).
Proof. reflexivity. Qed.

Example searchFileContentTool_embedding_down :
  let svc := Fixture.embedding_rejects (fun _ => true) [] in
  svc_embedQuery svc (trace Fixture.two_tenants) (lit "report")
  = Thrown (MkError (lit "embedding failed"))
  /\ fst (searchFileContentTool Fixture.cfg svc (lit "report")
            Fixture.two_tenants)
     = Returned (lit "Failed to search document content.").
Proof. cbv zeta. split; reflexivity. Qed.

Example searchFileContentTool_database_down :
  let svc := Fixture.database_down [] in
  fst (retrieve Fixture.cfg svc (lit "file_embeddings") (lit "report")
         (emit (EvEmbedQuery (lit "report")) Fixture.two_tenants))
  = Thrown (MkError (lit "database unreachable"))
  /\ fst (searchFileContentTool Fixture.cfg svc (lit "report")
            Fixture.two_tenants)
     = Returned (lit "Failed to search document content.").
Proof. cbv zeta. split; reflexivity. Qed.

Example searchFileContentTool_client_down :
  searchFileContentTool Fixture.cfg (Fixture.client_down [])
    (lit "report") Fixture.two_tenants
  = (Thrown (MkError (lit "invalid endpoint")), Fixture.two_tenants).
Proof. reflexivity. Qed.

(** *** Indexing without a configured collection *)

(** C10. With the collection variable unset (or empty), for a file whose
    text is extracted and not empty, [indexDocument] embeds the first chunk
    and nothing else, writes nothing to the database, which is left as it
    was, and returns normally.  The only calls made are the download and
    one embedding; the last console line is the warning, or the error of
    the embedding when that call throws. *)
Theorem indexDocument_collection_unset :
  forall (Vector : Type) (cfg : Config) (svc : Services Vector)
         (file bucketFileId mimeType : jsstring) (w : World Vector)
         (fileBuffer : bytes) (text : jsstring),
    svc_createAdminClient svc = None ->
    env_truthy (NEXT_PUBLIC_APPWRITE_VECTOR_COLLECTION cfg) = false ->
    svc_getFileDownload svc
      (trace w ++ [EvConsole (LogStartingIndexing file)])
      (bucketId cfg) bucketFileId = Returned fileBuffer ->
    extractTextFromFile svc fileBuffer mimeType = Returned text ->
    text <> [] ->
    let run := indexDocument cfg svc file bucketFileId mimeType w in
    let before :=
      trace w ++ [EvConsole (LogStartingIndexing file);
                  EvGetFileDownload (bucketId cfg) bucketFileId;
                  EvConsole (LogExtracted (length text)
                               (length (chunkText text)))] in
    let first := firstn 1000 text in
    fst run = Returned tt
    /\ database (snd run) = database w
    /\ trace (snd run)
       = before
           ++ [EvEmbedQuery first;
               EvConsole
                 match svc_embedQuery svc before first with
                 | Returned _ => WarnCollectionNotSet
                 | Thrown e => ErrorIndexing e
                 end].
Proof.
  intros Vector cfg svc file bucketFileId mimeType w fileBuffer text
    Hclient Henv Hdownload Hextract Hnonempty run before first.
  subst run.
  rewrite (indexDocument_reaches_loop cfg svc file bucketFileId mimeType w
             Hclient Hdownload Hextract).
  cbn zeta. fold before.
  assert (Hloop :
    indexChunks cfg svc file (chunkText text) (MkWorld (database w) before)
    = match svc_embedQuery svc before first with
      | Returned _ =>
          (Returned LoopReturn,
           MkWorld (database w)
             ((before ++ [EvEmbedQuery first])
                ++ [EvConsole WarnCollectionNotSet]))
      | Thrown e =>
          (Thrown e, MkWorld (database w) (before ++ [EvEmbedQuery first]))
      end).
  { rewrite (chunkText_cons Hnonempty).
    rewrite indexChunks_unset by exact Henv. reflexivity. }
  rewrite Hloop.
  destruct (svc_embedQuery svc before first) as [v|e];
    cbn [fst snd emit database trace];
    rewrite <- !app_assoc; repeat split; reflexivity.
Qed.

(** A text of 2500 code units indexed without a configured collection:
    the two stored documents of the collection are all there is afterwards. *)
Lemma indexDocument_collection_unset_witness :
  let svc := Fixture.healthy (Fixture.ascii_blob "x" 2500) in
  let text := Fixture.decode_ascii (Fixture.ascii_blob "x" 2500) in
  let w := Fixture.two_tenants in
  let run :=
    indexDocument Fixture.cfg_unset svc (lit "file1") (lit "blob1")
      (lit "text/plain") w in
  let before :=
    trace w ++ [EvConsole (LogStartingIndexing (lit "file1"));
                EvGetFileDownload (bucketId Fixture.cfg_unset) (lit "blob1");
                EvConsole (LogExtracted (length text)
                             (length (chunkText text)))] in
  let first := firstn 1000 text in
  fst run = Returned tt
  /\ database (snd run) = database w
  /\ trace (snd run)
     = before
         ++ [EvEmbedQuery first;
             EvConsole
               match svc_embedQuery svc before first with
               | Returned _ => WarnCollectionNotSet
               | Thrown e => ErrorIndexing e
               end].
Proof.
  apply (@indexDocument_collection_unset Fixture.Vec Fixture.cfg_unset
           (Fixture.healthy (Fixture.ascii_blob "x" 2500))
           (lit "file1") (lit "blob1") (lit "text/plain") Fixture.two_tenants
           (Fixture.ascii_blob "x" 2500)
           (Fixture.decode_ascii (Fixture.ascii_blob "x" 2500)));
    try reflexivity.
  discriminate.
Defined.

(** ** Further properties of the module *)

(** *** Helper facts *)

(** The run of [indexDocument] once the client is built: the download, the
    extraction, then the loop; whatever is thrown is logged. *)
Lemma indexDocument_run :
  forall (Vector : Type) (cfg : Config) (svc : Services Vector)
         (file bucketFileId mimeType : jsstring) (w : World Vector),
    svc_createAdminClient svc = None ->
    indexDocument cfg svc file bucketFileId mimeType w
    = let started := EvConsole (LogStartingIndexing file) in
      let download := EvGetFileDownload (bucketId cfg) bucketFileId in
      let failed e :=
        (Returned tt,
         MkWorld (database w)
           (trace w ++ [started; download; EvConsole (ErrorIndexing e)])) in
      match svc_getFileDownload svc (trace w ++ [started])
              (bucketId cfg) bucketFileId with
      | Thrown e => failed e
      | Returned fileBuffer =>
          match extractTextFromFile svc fileBuffer mimeType with
          | Thrown e => failed e
          | Returned text =>
              let w3 :=
                MkWorld (database w)
                  (trace w ++ [started; download;
                               EvConsole (LogExtracted (length text)
                                            (length (chunkText text)))]) in
              match indexChunks cfg svc file (chunkText text) w3 with
              | (Returned LoopCompleted, w') =>
                  (Returned tt, emit (EvConsole (LogIndexed file)) w')
              | (Returned LoopReturn, w') => (Returned tt, w')
              | (Thrown e, w') =>
                  (Returned tt, emit (EvConsole (ErrorIndexing e)) w')
              end
          end
      end.
Proof.
  intros Vector cfg svc file bucketFileId mimeType w Hclient. cbn zeta.
  destruct (svc_getFileDownload svc _ (bucketId cfg) bucketFileId)
    as [fileBuffer|e] eqn:Hdownload.
  - destruct (extractTextFromFile svc fileBuffer mimeType)
      as [text|e] eqn:Hextract.
    + apply (indexDocument_reaches_loop cfg svc file bucketFileId mimeType w
               Hclient Hdownload Hextract).
    + unfold indexDocument, bind at 1, createAdminClient. rewrite Hclient.
      unfold try_catch, bind at 1, console.
      unfold bind at 1, getFileDownload. cbn [emit trace database].
      rewrite Hdownload. unfold bind at 1, lift. rewrite Hextract.
      unfold emit. cbn [trace database].
      rewrite <- !app_assoc. reflexivity.
  - unfold indexDocument, bind at 1, createAdminClient. rewrite Hclient.
    unfold try_catch, bind at 1, console.
    unfold bind at 1, getFileDownload. cbn [emit trace database].
    rewrite Hdownload. unfold emit. cbn [trace database].
    rewrite <- !app_assoc. reflexivity.
Qed.

(** Every document the loop adds is a [stored_chunk] of the chunks it was
    given. *)
Lemma indexChunks_stored :
  forall (Vector : Type) (cfg : Config) (svc : Services Vector)
         (file : jsstring) (chunks : list jsstring) (w : World Vector),
  exists rows,
    database (snd (indexChunks cfg svc file chunks w)) = database w ++ rows
    /\ Forall (stored_chunk cfg svc file chunks) rows.
Proof.
  intros Vector cfg svc file chunks.
  induction chunks as [|chunk rest IH]; intros w.
  - exists []. cbn. rewrite app_nil_r. split; [reflexivity | constructor].
  - destruct (env_truthy (NEXT_PUBLIC_APPWRITE_VECTOR_COLLECTION cfg))
      eqn:Henv.
    + rewrite indexChunks_set by exact Henv.
      destruct (svc_embedQuery svc (trace w) chunk) as [v|e] eqn:Hembed.
      * cbn zeta. destruct (svc_database_fault svc _ _) as [e|].
        -- exists []. cbn. rewrite app_nil_r.
           split; [reflexivity | constructor].
        -- match goal with
           | |- context [indexChunks cfg svc file rest ?w1] =>
               destruct (IH w1) as (rows & Hdb & Hrows)
           end.
           eexists (_ :: rows). split.
           ++ rewrite Hdb. cbn [emit store database].
              rewrite <- app_assoc. reflexivity.
           ++ constructor.
              ** unfold stored_chunk. cbn.
                 repeat split; auto. exists (trace w). exact Hembed.
              ** eapply Forall_impl; [|exact Hrows].
                 intros r (Hf & Hd & Hc & Hin & Hv).
                 repeat split; auto. right. exact Hin.
      * exists []. cbn. rewrite app_nil_r.
        split; [reflexivity | constructor].
    + rewrite indexChunks_unset by exact Henv.
      exists [].
      destruct (svc_embedQuery svc (trace w) chunk);
        cbn; rewrite app_nil_r; (split; [reflexivity | constructor]).
Qed.

(** When the [return] of line 70 leaves the loop, the last thing done was
    the warning. *)
Lemma indexChunks_return_warns :
  forall (Vector : Type) (cfg : Config) (svc : Services Vector)
         (file : jsstring) (chunks : list jsstring) (w : World Vector),
    fst (indexChunks cfg svc file chunks w) = Returned LoopReturn ->
    exists tr,
      trace (snd (indexChunks cfg svc file chunks w))
      = tr ++ [EvConsole WarnCollectionNotSet].
Proof.
  intros Vector cfg svc file chunks.
  induction chunks as [|chunk rest IH]; intros w; [discriminate|].
  destruct (env_truthy (NEXT_PUBLIC_APPWRITE_VECTOR_COLLECTION cfg)) eqn:Henv.
  - rewrite indexChunks_set by exact Henv.
    destruct (svc_embedQuery svc (trace w) chunk) as [v|e]; [|discriminate].
    cbn zeta. destruct (svc_database_fault svc _ _); [discriminate|].
    apply IH.
  - rewrite indexChunks_unset by exact Henv.
    destruct (svc_embedQuery svc (trace w) chunk) as [v|e]; [|discriminate].
    intros _. eexists. reflexivity.
Qed.

(** When nothing fails and the collection is configured, every chunk of the
    text is written, in order, after the documents that were there. *)
Lemma indexDocument_all_chunks :
  forall (Vector : Type) (cfg : Config) (svc : Services Vector)
         (file bucketFileId mimeType : jsstring) (w : World Vector)
         (fileBuffer : bytes) (text : jsstring),
    svc_createAdminClient svc = None ->
    env_truthy (NEXT_PUBLIC_APPWRITE_VECTOR_COLLECTION cfg) = true ->
    svc_getFileDownload svc
      (trace w ++ [EvConsole (LogStartingIndexing file)])
      (bucketId cfg) bucketFileId = Returned fileBuffer ->
    extractTextFromFile svc fileBuffer mimeType = Returned text ->
    (forall tr chunk, is_returned (svc_embedQuery svc tr chunk) = true) ->
    (forall tr ev, svc_database_fault svc tr ev = None) ->
    exists rows,
      database (snd (indexDocument cfg svc file bucketFileId mimeType w))
      = database w ++ rows
      /\ rows_of cfg file (chunkText text) rows.
Proof.
  intros Vector cfg svc file bucketFileId mimeType w fileBuffer text
    Hclient Henv Hdownload Hextract Hembed Hdb.
  rewrite (indexDocument_reaches_loop cfg svc file bucketFileId mimeType w
             Hclient Hdownload Hextract).
  cbn zeta.
  match goal with
  | |- context [indexChunks cfg svc file (chunkText text) ?w3] =>
      pose proof (indexChunks_completes cfg svc file (chunkText text)
                    Henv Hembed Hdb w3) as Hdone;
      destruct (indexChunks_prefix cfg svc file (chunkText text) w3)
        as (k & rows & _ & Hrows & Hof & Hk);
      destruct (indexChunks cfg svc file (chunkText text) w3)
        as [[[]|e] w']
  end; cbn [fst snd] in *; try discriminate Hdone.
  specialize (Hk eq_refl). subst k. rewrite firstn_all in Hof.
  exists rows. cbn [emit database]. split; assumption.
Qed.

Lemma jsstring_eqb_refl (a : jsstring) : jsstring_eqb a a = true.
Proof. apply jsstring_eqb_eq. reflexivity. Qed.

(** With a separator that is not empty, a join is the empty string only for
    no part at all or for one empty part. *)
Lemma join_nil (sep : jsstring) (parts : list jsstring) :
  sep <> [] ->
  (join sep parts = [] <-> parts = [] \/ parts = [[]]).
Proof.
  intros Hsep. split.
  - destruct parts as [|p [|q rest]]; cbn [join]; intros H.
    + left. reflexivity.
    + right. subst p. reflexivity.
    + apply app_eq_nil in H. destruct H as [_ H].
      apply app_eq_nil in H. destruct H as [H _]. contradiction.
  - intros [->| ->]; reflexivity.
Qed.

(** *** Edge and error behaviour of [indexDocument] *)

(** X1. A file whose extracted text is empty is reported as indexed: the
    loop has nothing to do, no embedding is asked for, nothing is written,
    and the success line is logged, whether or not the collection is
    configured. *)
Theorem indexDocument_empty_text :
  forall (Vector : Type) (cfg : Config) (svc : Services Vector)
         (file bucketFileId mimeType : jsstring) (w : World Vector)
         (fileBuffer : bytes),
    svc_createAdminClient svc = None ->
    svc_getFileDownload svc
      (trace w ++ [EvConsole (LogStartingIndexing file)])
      (bucketId cfg) bucketFileId = Returned fileBuffer ->
    extractTextFromFile svc fileBuffer mimeType = Returned [] ->
    indexDocument cfg svc file bucketFileId mimeType w
    = (Returned tt,
       MkWorld (database w)
         (trace w ++ [EvConsole (LogStartingIndexing file);
                      EvGetFileDownload (bucketId cfg) bucketFileId;
                      EvConsole (LogExtracted 0 0);
                      EvConsole (LogIndexed file)])).
Proof.
  intros Vector cfg svc file bucketFileId mimeType w fileBuffer
    Hclient Hdownload Hextract.
  rewrite (indexDocument_run cfg svc file bucketFileId mimeType w Hclient).
  cbn zeta. rewrite Hdownload, Hextract.
  rewrite chunkText_nil. cbn [indexChunks ret length].
  unfold emit. cbn [trace database].
  rewrite <- app_assoc. reflexivity.
Qed.

(** An empty file indexed without a configured collection. *)
Lemma indexDocument_empty_text_witness :
  indexDocument Fixture.cfg_unset (Fixture.healthy []) (lit "file1")
    (lit "blob1") (lit "text/plain") Fixture.two_tenants
  = (Returned tt,
     MkWorld (database Fixture.two_tenants)
       (trace Fixture.two_tenants
          ++ [EvConsole (LogStartingIndexing (lit "file1"));
              EvGetFileDownload (bucketId Fixture.cfg_unset) (lit "blob1");
              EvConsole (LogExtracted 0 0);
              EvConsole (LogIndexed (lit "file1"))])).
Proof.
  apply (@indexDocument_empty_text Fixture.Vec Fixture.cfg_unset
           (Fixture.healthy []) (lit "file1") (lit "blob1")
           (lit "text/plain") Fixture.two_tenants []);
    reflexivity.
Defined.

(** X2. A file of an unsupported media type is downloaded all the same:
    the type is only looked at after the download.  The error of the
    extraction is then logged; no embedding is asked for and nothing is
    written. *)
Theorem indexDocument_unsupported_type :
  forall (Vector : Type) (cfg : Config) (svc : Services Vector)
         (file bucketFileId mimeType : jsstring) (w : World Vector)
         (fileBuffer : bytes),
    svc_createAdminClient svc = None ->
    svc_getFileDownload svc
      (trace w ++ [EvConsole (LogStartingIndexing file)])
      (bucketId cfg) bucketFileId = Returned fileBuffer ->
    mimeType <> lit "application/pdf" ->
    (forall subtype, mimeType <> lit "text/" ++ subtype) ->
    indexDocument cfg svc file bucketFileId mimeType w
    = (Returned tt,
       MkWorld (database w)
         (trace w ++ [EvConsole (LogStartingIndexing file);
                      EvGetFileDownload (bucketId cfg) bucketFileId;
                      EvConsole
                        (ErrorIndexing
                           (MkError
                              (lit "Unsupported file type for indexing: "
                                 ++ mimeType)))])).
Proof.
  intros Vector cfg svc file bucketFileId mimeType w fileBuffer
    Hclient Hdownload Hpdf Htext.
  rewrite (indexDocument_run cfg svc file bucketFileId mimeType w Hclient).
  cbn zeta. rewrite Hdownload.
  unfold extractTextFromFile.
  apply jsstring_eqb_neq in Hpdf. apply startsWith_not_prefix in Htext.
  rewrite Hpdf, Htext. reflexivity.
Qed.

(** A PNG image. *)
Lemma indexDocument_unsupported_type_witness :
  indexDocument Fixture.cfg (Fixture.healthy (Fixture.ascii_blob "x" 10))
    (lit "file1") (lit "blob1") (lit "image/png") Fixture.two_tenants
  = (Returned tt,
     MkWorld (database Fixture.two_tenants)
       (trace Fixture.two_tenants
          ++ [EvConsole (LogStartingIndexing (lit "file1"));
              EvGetFileDownload (bucketId Fixture.cfg) (lit "blob1");
              EvConsole
                (ErrorIndexing
                   (MkError
                      (lit "Unsupported file type for indexing: "
                         ++ lit "image/png")))])).
Proof.
  apply (@indexDocument_unsupported_type Fixture.Vec Fixture.cfg
           (Fixture.healthy (Fixture.ascii_blob "x" 10)) (lit "file1")
           (lit "blob1") (lit "image/png") Fixture.two_tenants
           (Fixture.ascii_blob "x" 10)).
  - reflexivity.
  - reflexivity.
  - discriminate.
  - intros subtype. discriminate.
Defined.

(** X3. When the download throws, the error is logged and the call
    returns: nothing else is attempted and the database is left as it
    was. *)
Theorem indexDocument_download_failure :
  forall (Vector : Type) (cfg : Config) (svc : Services Vector)
         (file bucketFileId mimeType : jsstring) (w : World Vector)
         (e : Error),
    svc_createAdminClient svc = None ->
    svc_getFileDownload svc
      (trace w ++ [EvConsole (LogStartingIndexing file)])
      (bucketId cfg) bucketFileId = Thrown e ->
    indexDocument cfg svc file bucketFileId mimeType w
    = (Returned tt,
       MkWorld (database w)
         (trace w ++ [EvConsole (LogStartingIndexing file);
                      EvGetFileDownload (bucketId cfg) bucketFileId;
                      EvConsole (ErrorIndexing e)])).
Proof.
  intros Vector cfg svc file bucketFileId mimeType w e Hclient Hdownload.
  rewrite (indexDocument_run cfg svc file bucketFileId mimeType w Hclient).
  cbn zeta. rewrite Hdownload. reflexivity.
Qed.

(** The blob store is unreachable. *)
Lemma indexDocument_download_failure_witness :
  indexDocument Fixture.cfg Fixture.storage_down (lit "file1")
    (lit "blob1") (lit "text/plain") Fixture.two_tenants
  = (Returned tt,
     MkWorld (database Fixture.two_tenants)
       (trace Fixture.two_tenants
          ++ [EvConsole (LogStartingIndexing (lit "file1"));
              EvGetFileDownload (bucketId Fixture.cfg) (lit "blob1");
              EvConsole
                (ErrorIndexing (MkError (lit "storage unreachable")))])).
Proof.
  apply (@indexDocument_download_failure Fixture.Vec Fixture.cfg
           Fixture.storage_down (lit "file1") (lit "blob1")
           (lit "text/plain") Fixture.two_tenants
           (MkError (lit "storage unreachable")));
    reflexivity.
Defined.

(** X4. [indexDocument] only ever appends: whatever the collaborators do,
    the documents that were stored are still there, unchanged and in the
    same order, and every document added carries the id of the indexed
    file, lives in the configured collection, has a content of 1 to 1000
    code units and the vector the embedding model returned for that
    content. *)
Theorem indexDocument_appends_only :
  forall (Vector : Type) (cfg : Config) (svc : Services Vector)
         (file bucketFileId mimeType : jsstring) (w : World Vector),
  exists rows,
    database (snd (indexDocument cfg svc file bucketFileId mimeType w))
    = database w ++ rows
    /\ Forall
         (fun r =>
            fileId (row_data r) = file
            /\ row_database r = databaseId cfg
            /\ row_collection r
               = non_null (NEXT_PUBLIC_APPWRITE_VECTOR_COLLECTION cfg)
            /\ 1 <= length (content (row_data r)) <= 1000
            /\ exists tr,
                 svc_embedQuery svc tr (content (row_data r))
                 = Returned (vector (row_data r)))
         rows.
Proof.
  intros Vector cfg svc file bucketFileId mimeType w.
  assert (Hnone : exists rows : list (Row Vector),
             database w = database w ++ rows
             /\ Forall
                  (fun r =>
                     fileId (row_data r) = file
                     /\ row_database r = databaseId cfg
                     /\ row_collection r
                        = non_null (NEXT_PUBLIC_APPWRITE_VECTOR_COLLECTION cfg)
                     /\ 1 <= length (content (row_data r)) <= 1000
                     /\ exists tr,
                          svc_embedQuery svc tr (content (row_data r))
                          = Returned (vector (row_data r)))
                  rows).
  { exists []. rewrite app_nil_r. split; [reflexivity | constructor]. }
  destruct (svc_createAdminClient svc) as [e|] eqn:Hclient.
  - unfold indexDocument, bind at 1, createAdminClient. rewrite Hclient.
    exact Hnone.
  - rewrite (indexDocument_run cfg svc file bucketFileId mimeType w Hclient).
    cbn zeta.
    destruct (svc_getFileDownload svc _ (bucketId cfg) bucketFileId)
      as [fileBuffer|e]; [|exact Hnone].
    destruct (extractTextFromFile svc fileBuffer mimeType) as [text|e];
      [|exact Hnone].
    match goal with
    | |- context [indexChunks cfg svc file (chunkText text) ?w3] =>
        destruct (indexChunks_stored cfg svc file (chunkText text) w3)
          as (rows & Hdb & Hrows);
        destruct (indexChunks cfg svc file (chunkText text) w3)
          as [[[]|e] w']
    end; cbn [fst snd emit database] in *;
      (exists rows; split; [exact Hdb|];
       eapply Forall_impl; [|exact Hrows];
       intros r (Hf & Hd & Hc & Hin & Hv); repeat split; auto;
       pose proof (@matchAllUpTo_sizes CHUNK_LIMIT
                     ltac:(unfold CHUNK_LIMIT; lia) (length text) text)
         as Hsizes;
       rewrite Forall_forall in Hsizes;
       apply (Hsizes _ Hin)).
Qed.

(** *** What the search does and does not do *)

(** X5. The search tool never writes: whatever the collaborators do, the
    database after the call is the database before it.  It makes at most
    one call to the embedding model and, after it, at most one
    [listDocuments] call; the only other thing it does is to log the
    error of a failed call. *)
Theorem searchFileContentTool_reads_only :
  forall (Vector : Type) (cfg : Config) (svc : Services Vector)
         (query : jsstring) (w : World Vector),
    let run := searchFileContentTool cfg svc query w in
    let embed := EvEmbedQuery query in
    let list :=
      EvListDocuments (databaseId cfg)
        (non_null (NEXT_PUBLIC_APPWRITE_VECTOR_COLLECTION cfg))
        [Query_contains (lit "content") query] in
    database (snd run) = database w
    /\ exists new,
         trace (snd run) = trace w ++ new
         /\ (new = []
             \/ new = [embed; list]
             \/ exists e,
                  new = [embed; EvConsole (ErrorSearch e)]
                  \/ new = [embed; list; EvConsole (ErrorSearch e)]).
Proof.
  intros Vector cfg svc query w run embed list. subst run.
  destruct (svc_createAdminClient svc) as [e|] eqn:Hclient.
  { unfold searchFileContentTool, bind at 1, createAdminClient.
    rewrite Hclient. cbn [snd]. split; [reflexivity|].
    exists []. rewrite app_nil_r. auto. }
  destruct (env_truthy (NEXT_PUBLIC_APPWRITE_VECTOR_COLLECTION cfg))
    eqn:Henv.
  - rewrite (searchFileContentTool_configured cfg svc query w Hclient Henv).
    cbn zeta.
    destruct (svc_embedQuery svc (trace w) query) as [v|e].
    + unfold retrieve, listDocuments. cbn zeta.
      destruct (svc_database_fault svc _ _) as [e|];
        cbn [snd emit database trace]; (split; [reflexivity|]);
        rewrite <- !app_assoc; eexists; (split; [reflexivity|]).
      * right. right. exists e. right. reflexivity.
      * right. left. reflexivity.
    + cbn [snd emit database trace]. split; [reflexivity|].
      rewrite <- !app_assoc. eexists. split; [reflexivity|].
      right. right. exists e. left. reflexivity.
  - unfold searchFileContentTool, bind at 1, createAdminClient.
    rewrite Hclient, Henv. cbn [negb ret snd]. split; [reflexivity|].
    exists []. rewrite app_nil_r. auto.
Qed.

(** X11. The answer of the tool does not depend on the query vector:
    with another embedding model that also answers the query, the tool
    returns the same string (the vector of line 106 is never used). *)
Theorem searchFileContentTool_ignores_vector :
  forall (Vector : Type) (cfg : Config) (svc : Services Vector)
         (model : list (Event Vector) -> jsstring -> Outcome Vector)
         (query : jsstring) (w : World Vector),
    is_returned (svc_embedQuery svc (trace w) query) = true ->
    is_returned (model (trace w) query) = true ->
    searchFileContentTool cfg (with_embedQuery svc model) query w
    = searchFileContentTool cfg svc query w.
Proof.
  intros Vector cfg svc model query w Hsvc Hmodel.
  destruct (svc_createAdminClient svc) as [e|] eqn:Hclient.
  { unfold searchFileContentTool, bind, createAdminClient.
    cbn [with_embedQuery svc_createAdminClient]. rewrite Hclient.
    reflexivity. }
  destruct (env_truthy (NEXT_PUBLIC_APPWRITE_VECTOR_COLLECTION cfg))
    eqn:Henv.
  - rewrite (searchFileContentTool_configured cfg svc query w Hclient Henv).
    rewrite (@searchFileContentTool_configured _ cfg
               (with_embedQuery svc model) query w Hclient Henv).
    cbn zeta. cbn [with_embedQuery svc_embedQuery].
    destruct (svc_embedQuery svc (trace w) query) as [v|e];
      [|discriminate Hsvc].
    destruct (model (trace w) query) as [v'|e]; [|discriminate Hmodel].
    reflexivity.
  - unfold searchFileContentTool, bind, createAdminClient.
    cbn [with_embedQuery svc_createAdminClient].
    rewrite Hclient, Henv. reflexivity.
Qed.

(** The length-counting model replaced by one that answers a constant. *)
Lemma searchFileContentTool_ignores_vector_witness :
  searchFileContentTool Fixture.cfg
    (with_embedQuery (Fixture.healthy []) (fun _ _ => Returned [42%N]))
    (lit "report") Fixture.two_tenants
  = searchFileContentTool Fixture.cfg (Fixture.healthy []) (lit "report")
      Fixture.two_tenants.
Proof.
  apply (@searchFileContentTool_ignores_vector Fixture.Vec Fixture.cfg
           (Fixture.healthy []) (fun _ _ => Returned [42%N])
           (lit "report") Fixture.two_tenants);
    reflexivity.
Defined.

(** X10. When the search goes through, the fallback message is returned
    exactly when the joined contents are the empty string, which is the
    case for no document and also for a single document whose content is
    empty; in every other case the answer is the joined contents, and it
    is not empty. *)
Theorem searchFileContentTool_fallback :
  forall (Vector : Type) (cfg : Config) (svc : Services Vector)
         (query : jsstring) (w : World Vector) (queryVector : Vector)
         (documents : list (Row Vector)),
    svc_createAdminClient svc = None ->
    env_truthy (NEXT_PUBLIC_APPWRITE_VECTOR_COLLECTION cfg) = true ->
    svc_embedQuery svc (trace w) query = Returned queryVector ->
    fst (retrieve cfg svc
           (non_null (NEXT_PUBLIC_APPWRITE_VECTOR_COLLECTION cfg)) query
           (emit (EvEmbedQuery query) w)) = Returned documents ->
    let answer := fst (searchFileContentTool cfg svc query w) in
    (contents documents = [] \/ contents documents = [[]] ->
     answer = Returned NO_RELEVANT_CONTENT)
    /\ (contents documents <> [] -> contents documents <> [[]] ->
        answer = Returned (join SEPARATOR (contents documents))
        /\ join SEPARATOR (contents documents) <> []).
Proof.
  intros Vector cfg svc query w queryVector documents
    Hclient Henv Hembed Hretrieve answer.
  assert (Hanswer :
    answer = Returned (or_else (join SEPARATOR (contents documents))
                         NO_RELEVANT_CONTENT)).
  { subst answer.
    rewrite (searchFileContentTool_configured cfg svc query w Hclient Henv).
    cbn zeta. rewrite Hembed.
    destruct (retrieve cfg svc _ query _) as [[docs|e] w2];
      cbn [fst] in Hretrieve; [|discriminate Hretrieve].
    injection Hretrieve as ->. reflexivity. }
  assert (Hsep : SEPARATOR <> []) by discriminate.
  rewrite Hanswer. split.
  - intros Hempty. apply (join_nil (contents documents) Hsep) in Hempty.
    rewrite Hempty. reflexivity.
  - intros Hsome Hone.
    assert (Hjoin : join SEPARATOR (contents documents) <> []).
    { intros Hnil. apply (join_nil (contents documents) Hsep) in Hnil.
      tauto. }
    split; [|exact Hjoin].
    unfold or_else.
    destruct (join SEPARATOR (contents documents)); [congruence|reflexivity].
Qed.

(** The two-tenant collection searched for "report". *)
Lemma searchFileContentTool_fallback_witness :
  let documents := database Fixture.two_tenants in
  let answer :=
    fst (searchFileContentTool Fixture.cfg (Fixture.healthy [])
           (lit "report") Fixture.two_tenants) in
  (contents documents = [] \/ contents documents = [[]] ->
   answer = Returned NO_RELEVANT_CONTENT)
  /\ (contents documents <> [] -> contents documents <> [[]] ->
      answer = Returned (join SEPARATOR (contents documents))
      /\ join SEPARATOR (contents documents) <> []).
Proof.
  apply (@searchFileContentTool_fallback Fixture.Vec Fixture.cfg
           (Fixture.healthy []) (lit "report") Fixture.two_tenants
           (Fixture.embed_length (lit "report"))
           (database Fixture.two_tenants));
    reflexivity.
Defined.

(** *** Indexing, then searching *)

(** X6. What has been indexed can be found: after a run of
    [indexDocument] in which nothing failed, the retrieval step of a
    search whose query the database matches against a chunk of the file
    returns the matching documents of the collection (when they fit in
    one page), and among them is a document that this run has written,
    with the id of the file and that chunk as content; the answer of the
    tool is built from the retrieved documents. *)
Theorem index_then_search :
  forall (Vector : Type) (cfg : Config) (svc : Services Vector)
         (file bucketFileId mimeType : jsstring) (w : World Vector)
         (fileBuffer : bytes) (text chunk query : jsstring),
    let collection :=
      non_null (NEXT_PUBLIC_APPWRITE_VECTOR_COLLECTION cfg) in
    let contains := Query_contains (lit "content") query in
    let indexed :=
      snd (indexDocument cfg svc file bucketFileId mimeType w) in
    let documents :=
      filter (selected svc (databaseId cfg) collection [contains])
        (database indexed) in
    svc_createAdminClient svc = None ->
    env_truthy (NEXT_PUBLIC_APPWRITE_VECTOR_COLLECTION cfg) = true ->
    svc_getFileDownload svc
      (trace w ++ [EvConsole (LogStartingIndexing file)])
      (bucketId cfg) bucketFileId = Returned fileBuffer ->
    extractTextFromFile svc fileBuffer mimeType = Returned text ->
    (forall tr t, is_returned (svc_embedQuery svc tr t) = true) ->
    (forall tr ev, svc_database_fault svc tr ev = None) ->
    In chunk (chunkText text) ->
    (forall v, svc_matches svc contains (MkChunk file chunk v) = true) ->
    length documents <= svc_page_limit svc ->
    fst (retrieve cfg svc collection query
           (emit (EvEmbedQuery query) indexed)) = Returned documents
    /\ fst (searchFileContentTool cfg svc query indexed)
       = Returned (or_else (join SEPARATOR (contents documents))
                     NO_RELEVANT_CONTENT)
    /\ exists (written : list (Row Vector)) (d : Row Vector),
         database indexed = database w ++ written
         /\ In d written
         /\ In d documents
         /\ fileId (row_data d) = file
         /\ content (row_data d) = chunk.
Proof.
  intros Vector cfg svc file bucketFileId mimeType w fileBuffer text chunk
    query collection contains indexed documents Hclient Henv Hdownload
    Hextract Hembed Hdb Hchunk Hmatch Hpage.
  assert (Hretrieve :
    retrieve cfg svc collection query (emit (EvEmbedQuery query) indexed)
    = (Returned documents,
       emit (EvListDocuments (databaseId cfg) collection [contains])
         (emit (EvEmbedQuery query) indexed))).
  { unfold retrieve, listDocuments. cbn zeta. rewrite Hdb.
    cbn [emit database]. fold contains documents.
    rewrite firstn_all2 by exact Hpage. reflexivity. }
  split; [rewrite Hretrieve; reflexivity|]. split.
  - rewrite (searchFileContentTool_configured cfg svc query indexed
               Hclient Henv).
    cbn zeta.
    pose proof (Hembed (trace indexed) query) as Hq.
    destruct (svc_embedQuery svc (trace indexed) query) as [v|e];
      [|discriminate Hq].
    fold collection. rewrite Hretrieve. reflexivity.
  - destruct (indexDocument_all_chunks cfg svc file bucketFileId mimeType w
                Hclient Henv Hdownload Hextract Hembed Hdb)
      as (rows & Hrows & Hcontents & Hfields).
    fold indexed in Hrows.
    rewrite <- Hcontents in Hchunk. unfold contents in Hchunk.
    apply in_map_iff in Hchunk. destruct Hchunk as (d & Hd & Hin).
    rewrite Forall_forall in Hfields.
    destruct (Hfields d Hin) as (Hfile & Hbase & Hcoll).
    exists rows, d. repeat split; try assumption.
    apply filter_In. split.
    + rewrite Hrows. apply in_or_app. right. exact Hin.
    + unfold selected, in_collection. cbn [forallb].
      fold collection in Hcoll.
      rewrite Hbase, Hcoll, !jsstring_eqb_refl.
      destruct d as [db coll id [f c v]]. cbn in Hfile, Hd. subst f c.
      cbn [row_data]. rewrite Hmatch. reflexivity.
Qed.

(** A text of three chunks of x's indexed beside the two tenants' chunks,
    then searched for "xxx": the three documents of the file are
    retrieved, the last with the chunk of 500 code units. *)
Lemma index_then_search_witness :
  let cfg := Fixture.cfg in
  let svc := Fixture.healthy (Fixture.ascii_blob "x" 2500) in
  let file := lit "file1" in
  let chunk := repeat 120%N 500 in
  let query := lit "xxx" in
  let w := Fixture.two_tenants in
  let indexed :=
    snd (indexDocument cfg svc file (lit "blob1") (lit "text/plain") w) in
  let documents :=
    filter (selected svc (databaseId cfg) (lit "file_embeddings")
              [Query_contains (lit "content") query])
      (database indexed) in
  fst (retrieve cfg svc (lit "file_embeddings") query
         (emit (EvEmbedQuery query) indexed)) = Returned documents
  /\ fst (searchFileContentTool cfg svc query indexed)
     = Returned (or_else (join SEPARATOR (contents documents))
                   NO_RELEVANT_CONTENT)
  /\ exists (written : list (Row Fixture.Vec)) (d : Row Fixture.Vec),
       database indexed = database w ++ written
       /\ In d written
       /\ In d documents
       /\ fileId (row_data d) = file
       /\ content (row_data d) = chunk.
Proof.
  apply (@index_then_search Fixture.Vec Fixture.cfg
           (Fixture.healthy (Fixture.ascii_blob "x" 2500))
           (lit "file1") (lit "blob1") (lit "text/plain")
           Fixture.two_tenants (Fixture.ascii_blob "x" 2500)
           (Fixture.decode_ascii (Fixture.ascii_blob "x" 2500))
           (repeat 120%N 500) (lit "xxx"));
    try reflexivity.
  - vm_compute. right. right. left. reflexivity.
  - vm_compute. lia.
Defined.

(** In that run the retrieved documents are the three just written and
    none of the two tenants' chunks. *)
Example index_then_search_retrieved :
  let svc := Fixture.healthy (Fixture.ascii_blob "x" 2500) in
  let indexed :=
    snd (indexDocument Fixture.cfg svc (lit "file1") (lit "blob1")
           (lit "text/plain") Fixture.two_tenants) in
  match fst (retrieve Fixture.cfg svc (lit "file_embeddings") (lit "xxx")
               (emit (EvEmbedQuery (lit "xxx")) indexed)) with
  | Returned documents =>
      map (fun d => fileId (row_data d)) documents
      = [lit "file1"; lit "file1"; lit "file1"]
      /\ contents documents
         = [repeat 120%N 1000; repeat 120%N 1000; repeat 120%N 500]
  | Thrown _ => False
  end.
Proof. vm_compute. split; reflexivity. Qed.

(** X7. Indexing is not idempotent: indexing the same file a second time
    writes its chunks a second time, after the first copy, and removes
    nothing. *)
Theorem indexDocument_twice :
  forall (Vector : Type) (cfg : Config) (svc : Services Vector)
         (file bucketFileId mimeType : jsstring) (w : World Vector)
         (fileBuffer : bytes) (text : jsstring),
    let once := snd (indexDocument cfg svc file bucketFileId mimeType w) in
    let twice :=
      snd (indexDocument cfg svc file bucketFileId mimeType once) in
    svc_createAdminClient svc = None ->
    env_truthy (NEXT_PUBLIC_APPWRITE_VECTOR_COLLECTION cfg) = true ->
    (forall tr,
        svc_getFileDownload svc tr (bucketId cfg) bucketFileId
        = Returned fileBuffer) ->
    extractTextFromFile svc fileBuffer mimeType = Returned text ->
    (forall tr t, is_returned (svc_embedQuery svc tr t) = true) ->
    (forall tr ev, svc_database_fault svc tr ev = None) ->
    exists first second,
      database twice = database w ++ first ++ second
      /\ rows_of cfg file (chunkText text) first
      /\ rows_of cfg file (chunkText text) second
      /\ length (database twice)
         = length (database w) + 2 * length (chunkText text).
Proof.
  intros Vector cfg svc file bucketFileId mimeType w fileBuffer text
    once twice Hclient Henv Hdownload Hextract Hembed Hdb.
  destruct (indexDocument_all_chunks cfg svc file bucketFileId mimeType w
              Hclient Henv (Hdownload _) Hextract Hembed Hdb)
    as (first & Hfirst & Hof1).
  destruct (indexDocument_all_chunks cfg svc file bucketFileId mimeType once
              Hclient Henv (Hdownload _) Hextract Hembed Hdb)
    as (second & Hsecond & Hof2).
  fold once in Hfirst. fold twice in Hsecond.
  exists first, second. rewrite Hsecond, Hfirst, <- app_assoc.
  repeat split; try apply Hof1; try apply Hof2.
  rewrite !length_app.
  destruct Hof1 as [H1 _]. destruct Hof2 as [H2 _].
  rewrite <- (contents_length first), <- (contents_length second), H1, H2.
  lia.
Qed.

(** A text of 2500 code units indexed twice: six documents are added. *)
Lemma indexDocument_twice_witness :
  let cfg := Fixture.cfg in
  let svc := Fixture.healthy (Fixture.ascii_blob "x" 2500) in
  let text := Fixture.decode_ascii (Fixture.ascii_blob "x" 2500) in
  let file := lit "file1" in
  let w := Fixture.two_tenants in
  let once :=
    snd (indexDocument cfg svc file (lit "blob1") (lit "text/plain") w) in
  let twice :=
    snd (indexDocument cfg svc file (lit "blob1") (lit "text/plain") once) in
  exists first second,
    database twice = database w ++ first ++ second
    /\ rows_of cfg file (chunkText text) first
    /\ rows_of cfg file (chunkText text) second
    /\ length (database twice)
       = length (database w) + 2 * length (chunkText text).
Proof.
  apply (@indexDocument_twice Fixture.Vec Fixture.cfg
           (Fixture.healthy (Fixture.ascii_blob "x" 2500))
           (lit "file1") (lit "blob1") (lit "text/plain")
           Fixture.two_tenants (Fixture.ascii_blob "x" 2500)
           (Fixture.decode_ascii (Fixture.ascii_blob "x" 2500)));
    reflexivity.
Defined.

(** X12. The success line is only logged for a complete index: when the
    run ends with "Successfully indexed file", every chunk of the text has
    been written, in order. *)
Theorem indexDocument_success_line :
  forall (Vector : Type) (cfg : Config) (svc : Services Vector)
         (file bucketFileId mimeType : jsstring) (w : World Vector)
         (fileBuffer : bytes) (text : jsstring)
         (before : list (Event Vector)),
    let run := indexDocument cfg svc file bucketFileId mimeType w in
    svc_createAdminClient svc = None ->
    svc_getFileDownload svc
      (trace w ++ [EvConsole (LogStartingIndexing file)])
      (bucketId cfg) bucketFileId = Returned fileBuffer ->
    extractTextFromFile svc fileBuffer mimeType = Returned text ->
    trace (snd run) = before ++ [EvConsole (LogIndexed file)] ->
    exists rows,
      database (snd run) = database w ++ rows
      /\ rows_of cfg file (chunkText text) rows.
Proof.
  intros Vector cfg svc file bucketFileId mimeType w fileBuffer text before
    run Hclient Hdownload Hextract. subst run.
  rewrite (indexDocument_reaches_loop cfg svc file bucketFileId mimeType w
             Hclient Hdownload Hextract).
  cbn zeta.
  match goal with
  | |- context [indexChunks cfg svc file (chunkText text) ?w3] =>
      pose proof (indexChunks_return_warns cfg svc file (chunkText text) w3)
        as Hwarn;
      destruct (indexChunks_prefix cfg svc file (chunkText text) w3)
        as (k & rows & _ & Hrows & Hof & Hk);
      destruct (indexChunks cfg svc file (chunkText text) w3)
        as [[[]|e] w']
  end; cbn [fst snd emit database trace] in *; intros Hlast.
  - specialize (Hk eq_refl). subst k. rewrite firstn_all in Hof.
    exists rows. split; assumption.
  - destruct (Hwarn eq_refl) as [tr Htr]. rewrite Htr in Hlast.
    apply app_inj_tail in Hlast. destruct Hlast as [_ Hlast].
    discriminate Hlast.
  - apply app_inj_tail in Hlast. destruct Hlast as [_ Hlast].
    discriminate Hlast.
Qed.

(** A healthy run over a text of 2500 code units ends with the success
    line. *)
Lemma indexDocument_success_line_witness :
  let cfg := Fixture.cfg in
  let svc := Fixture.healthy (Fixture.ascii_blob "x" 2500) in
  let text := Fixture.decode_ascii (Fixture.ascii_blob "x" 2500) in
  let file := lit "file1" in
  let w := Fixture.two_tenants in
  let run := indexDocument cfg svc file (lit "blob1") (lit "text/plain") w in
  exists rows,
    database (snd run) = database w ++ rows
    /\ rows_of cfg file (chunkText text) rows.
Proof.
  apply (@indexDocument_success_line Fixture.Vec Fixture.cfg
           (Fixture.healthy (Fixture.ascii_blob "x" 2500))
           (lit "file1") (lit "blob1") (lit "text/plain")
           Fixture.two_tenants (Fixture.ascii_blob "x" 2500)
           (Fixture.decode_ascii (Fixture.ascii_blob "x" 2500))
           (removelast
              (trace (snd (indexDocument Fixture.cfg
                             (Fixture.healthy (Fixture.ascii_blob "x" 2500))
                             (lit "file1") (lit "blob1") (lit "text/plain")
                             Fixture.two_tenants)))));
    vm_compute; reflexivity.
Defined.

(** *** Where the chunks lie *)

(** The [i]-th match of the global match is the slice that starts at
    [i * n]. *)
Lemma matchAllUpTo_nth (n : nat) :
  0 < n ->
  forall i fuel s,
    length s <= fuel -> i * n < length s ->
    nth_error (matchAllUpTo n fuel s) i = Some (firstn n (skipn (i * n) s)).
Proof.
  intros Hn. induction i as [|i IH]; intros fuel s Hfuel Hlt.
  - destruct s as [|c s]; [cbn in Hlt; lia|].
    destruct fuel as [|fuel]; [cbn in Hfuel; lia|]. reflexivity.
  - destruct s as [|c s]; [cbn in Hlt; lia|].
    destruct fuel as [|fuel]; [cbn in Hfuel; lia|].
    cbn [matchAllUpTo nth_error].
    rewrite IH.
    + rewrite skipn_skipn.
      replace (S i * n) with (i * n + n) by lia. reflexivity.
    + rewrite length_skipn. cbn [length] in *. lia.
    + rewrite length_skipn. cbn [length Nat.mul] in *. lia.
Qed.

(** X8. The chunk of index [i] is the slice of the text that starts at
    code unit [1000 * i] and has 1000 code units, or what is left of the
    text; there is such a chunk exactly when the text is longer than
    [1000 * i]. *)
Theorem chunkText_nth :
  forall (text : jsstring) (i : nat),
    nth_error (chunkText text) i
    = if i * 1000 <? length text
      then Some (firstn 1000 (skipn (i * 1000) text))
      else None.
Proof.
  intros text i. unfold chunkText.
  assert (Hpos : 0 < CHUNK_LIMIT) by (unfold CHUNK_LIMIT; lia).
  destruct (Nat.ltb_spec (i * 1000) (length text)) as [Hlt|Hge].
  - apply (matchAllUpTo_nth Hpos); [lia | exact Hlt].
  - apply nth_error_None.
    rewrite (matchAllUpTo_count Hpos) by lia. unfold CHUNK_LIMIT.
    apply Nat.lt_succ_r, Nat.Div0.div_lt_upper_bound. lia.
Qed.

(** *** The media type *)

(** X9. The PDF branch needs the media type to be exactly
    [application/pdf]: a type that goes on after these characters (for
    instance with a parameter) is refused as unsupported, while the text
    branch accepts everything that starts with [text/]. *)
Theorem extractTextFromFile_pdf_exact :
  forall (Vector : Type) (svc : Services Vector) (fileBuffer : bytes)
         (parameters : jsstring),
    parameters <> [] ->
    extractTextFromFile svc fileBuffer (lit "application/pdf" ++ parameters)
    = Thrown (MkError (lit "Unsupported file type for indexing: "
                         ++ lit "application/pdf" ++ parameters)).
Proof.
  intros Vector svc fileBuffer parameters Hparameters.
  unfold extractTextFromFile.
  assert (Hpdf : jsstring_eqb (lit "application/pdf" ++ parameters)
                   (lit "application/pdf") = false).
  { apply jsstring_eqb_neq. intros Heq.
    rewrite <- (app_nil_r (lit "application/pdf")) in Heq at 2.
    apply app_inv_head in Heq. contradiction. }
  rewrite Hpdf. reflexivity.
Qed.

(** A PDF type with a character set. *)
Lemma extractTextFromFile_pdf_exact_witness :
  extractTextFromFile (Fixture.healthy []) (Fixture.ascii_blob "x" 3)
    (lit "application/pdf" ++ lit "; charset=binary")
  = Thrown (MkError (lit "Unsupported file type for indexing: "
                       ++ lit "application/pdf" ++ lit "; charset=binary")).
Proof.
  apply (@extractTextFromFile_pdf_exact Fixture.Vec (Fixture.healthy [])
           (Fixture.ascii_blob "x" 3) (lit "; charset=binary")).
  discriminate.
Defined.

(** *** The admin client *)

(** X13. [createAdminClient] is called before the [try] in both entry
    points: when it throws, the same error reaches the caller of
    [indexDocument] and of the search tool, before any other call is made
    and with nothing logged. *)
Theorem client_failure_reaches_caller :
  forall (Vector : Type) (cfg : Config) (svc : Services Vector)
         (file bucketFileId mimeType query : jsstring) (w : World Vector)
         (e : Error),
    svc_createAdminClient svc = Some e ->
    indexDocument cfg svc file bucketFileId mimeType w = (Thrown e, w)
    /\ searchFileContentTool cfg svc query w = (Thrown e, w).
Proof.
  intros Vector cfg svc file bucketFileId mimeType query w e Hclient.
  split.
  - unfold indexDocument, bind at 1, createAdminClient.
    rewrite Hclient. reflexivity.
  - unfold searchFileContentTool, bind at 1, createAdminClient.
    rewrite Hclient. reflexivity.
Qed.

(** A client that cannot be built. *)
Lemma client_failure_reaches_caller_witness :
  let svc :=
    {| svc_createAdminClient := Some (MkError (lit "invalid endpoint"));
       svc_getFileDownload := svc_getFileDownload (Fixture.healthy []);
       svc_pdf_parse := svc_pdf_parse (Fixture.healthy []);
       svc_utf8_decode := Fixture.decode_ascii;
       svc_embedQuery := svc_embedQuery (Fixture.healthy []);
       svc_unique := svc_unique (Fixture.healthy []);
       svc_database_fault := svc_database_fault (Fixture.healthy []);
       svc_matches := Fixture.matches;
       svc_page_limit := 25 |} in
  let e := MkError (lit "invalid endpoint") in
  let w := Fixture.two_tenants in
  indexDocument Fixture.cfg svc (lit "file1") (lit "blob1")
    (lit "text/plain") w = (Thrown e, w)
  /\ searchFileContentTool Fixture.cfg svc (lit "report") w = (Thrown e, w).
Proof.
  cbv zeta.
  apply (@client_failure_reaches_caller Fixture.Vec Fixture.cfg
           {| svc_createAdminClient := Some (MkError (lit "invalid endpoint"));
              svc_getFileDownload := svc_getFileDownload (Fixture.healthy []);
              svc_pdf_parse := svc_pdf_parse (Fixture.healthy []);
              svc_utf8_decode := Fixture.decode_ascii;
              svc_embedQuery := svc_embedQuery (Fixture.healthy []);
              svc_unique := svc_unique (Fixture.healthy []);
              svc_database_fault := svc_database_fault (Fixture.healthy []);
              svc_matches := Fixture.matches;
              svc_page_limit := 25 |}
           (lit "file1") (lit "blob1") (lit "text/plain") (lit "report")
           Fixture.two_tenants (MkError (lit "invalid endpoint"))).
  reflexivity.
Defined.

(** *** The calls to the embedding model *)

(** The loop embeds the chunks in order, one call each, and stops after
    the first chunk it could not store: the documents written are as many
    as the embedded chunks, or one less. *)
Lemma indexChunks_embed_calls :
  forall (Vector : Type) (cfg : Config) (svc : Services Vector)
         (file : jsstring) (chunks : list jsstring) (w : World Vector),
  exists k rows,
    database (snd (indexChunks cfg svc file chunks w)) = database w ++ rows
    /\ embed_calls (trace (snd (indexChunks cfg svc file chunks w)))
       = embed_calls (trace w) ++ firstn k chunks
    /\ length rows <= k <= S (length rows).
Proof.
  intros Vector cfg svc file chunks.
  induction chunks as [|chunk rest IH]; intros w.
  - exists 0, []. cbn. rewrite !app_nil_r. repeat split; lia.
  - destruct (env_truthy (NEXT_PUBLIC_APPWRITE_VECTOR_COLLECTION cfg))
      eqn:Henv.
    + rewrite indexChunks_set by exact Henv.
      destruct (svc_embedQuery svc (trace w) chunk) as [v|e].
      * cbn zeta. destruct (svc_database_fault svc _ _) as [e|].
        -- exists 1, []. cbn [snd emit database trace firstn length].
           rewrite !embed_calls_app, app_nil_r. cbn.
           rewrite app_nil_r. repeat split; lia.
        -- match goal with
           | |- context [indexChunks cfg svc file rest ?w1] =>
               destruct (IH w1) as (k & rows & Hdb & Hcalls & Hk)
           end.
           exists (S k). eexists (_ :: rows). split; [|split].
           ++ rewrite Hdb. cbn [emit store database].
              rewrite <- app_assoc. reflexivity.
           ++ rewrite Hcalls. cbn [emit store trace firstn].
              rewrite !embed_calls_app. cbn.
              rewrite app_nil_r, <- app_assoc. reflexivity.
           ++ cbn [length]. lia.
      * exists 1, []. cbn [snd emit database trace firstn length].
        rewrite !embed_calls_app, app_nil_r. cbn. repeat split; lia.
    + rewrite indexChunks_unset by exact Henv.
      exists 1, [].
      destruct (svc_embedQuery svc (trace w) chunk);
        cbn [snd emit database trace firstn length];
        rewrite !embed_calls_app, app_nil_r; cbn;
        rewrite ?app_nil_r; repeat split; lia.
Qed.

(** X15. [indexDocument] sends the chunks of the text to the embedding
    model in the order of the text, each at most once, and stops at the
    first chunk it does not store: the chunks embedded are the first [k]
    chunks of the text, and the documents written are [k] or [k - 1]. *)
Theorem indexDocument_embed_calls :
  forall (Vector : Type) (cfg : Config) (svc : Services Vector)
         (file bucketFileId mimeType : jsstring) (w : World Vector)
         (fileBuffer : bytes) (text : jsstring),
    let run := indexDocument cfg svc file bucketFileId mimeType w in
    svc_createAdminClient svc = None ->
    svc_getFileDownload svc
      (trace w ++ [EvConsole (LogStartingIndexing file)])
      (bucketId cfg) bucketFileId = Returned fileBuffer ->
    extractTextFromFile svc fileBuffer mimeType = Returned text ->
    exists k rows,
      database (snd run) = database w ++ rows
      /\ embed_calls (trace (snd run))
         = embed_calls (trace w) ++ firstn k (chunkText text)
      /\ length rows <= k <= S (length rows).
Proof.
  intros Vector cfg svc file bucketFileId mimeType w fileBuffer text run
    Hclient Hdownload Hextract. subst run.
  rewrite (indexDocument_reaches_loop cfg svc file bucketFileId mimeType w
             Hclient Hdownload Hextract).
  cbn zeta.
  match goal with
  | |- context [indexChunks cfg svc file (chunkText text) ?w3] =>
      destruct (indexChunks_embed_calls cfg svc file (chunkText text) w3)
        as (k & rows & Hdb & Hcalls & Hk);
      destruct (indexChunks cfg svc file (chunkText text) w3)
        as [[[]|e] w']
  end; cbn [fst snd emit database trace] in *;
    exists k, rows; rewrite ?embed_calls_app, Hcalls, !embed_calls_app;
    cbn; rewrite ?app_nil_r; repeat split; auto; lia.
Qed.

(** Three chunks of which the second is rejected: two are embedded, one
    is written. *)
Lemma indexDocument_embed_calls_witness :
  let blob :=
    Fixture.ascii_blob "a" 1000 ++ Fixture.ascii_blob "b" 1000
      ++ Fixture.ascii_blob "c" 1000 in
  let svc :=
    Fixture.embedding_rejects (fun text => startsWith text [98%N]) blob in
  let w := Fixture.two_tenants in
  let run :=
    indexDocument Fixture.cfg svc (lit "file1") (lit "blob1")
      (lit "text/plain") w in
  exists k rows,
    database (snd run) = database w ++ rows
    /\ embed_calls (trace (snd run))
       = embed_calls (trace w)
           ++ firstn k (chunkText (Fixture.decode_ascii blob))
    /\ length rows <= k <= S (length rows).
Proof.
  cbv zeta.
  apply (@indexDocument_embed_calls Fixture.Vec Fixture.cfg
           (Fixture.embedding_rejects (fun text => startsWith text [98%N])
              (Fixture.ascii_blob "a" 1000 ++ Fixture.ascii_blob "b" 1000
                 ++ Fixture.ascii_blob "c" 1000))
           (lit "file1") (lit "blob1") (lit "text/plain")
           Fixture.two_tenants
           (Fixture.ascii_blob "a" 1000 ++ Fixture.ascii_blob "b" 1000
              ++ Fixture.ascii_blob "c" 1000)
           (Fixture.decode_ascii
              (Fixture.ascii_blob "a" 1000 ++ Fixture.ascii_blob "b" 1000
                 ++ Fixture.ascii_blob "c" 1000)));
    reflexivity.
Defined.

(** *** Indexing without a collection, in general *)

(** Without a configured collection the loop writes nothing. *)
Lemma indexChunks_unset_keeps_database :
  forall (Vector : Type) (cfg : Config) (svc : Services Vector)
         (file : jsstring) (chunks : list jsstring) (w : World Vector),
    env_truthy (NEXT_PUBLIC_APPWRITE_VECTOR_COLLECTION cfg) = false ->
    database (snd (indexChunks cfg svc file chunks w)) = database w.
Proof.
  intros Vector cfg svc file [|chunk rest] w Henv; [reflexivity|].
  rewrite indexChunks_unset by exact Henv.
  destruct (svc_embedQuery svc (trace w) chunk); reflexivity.
Qed.

(** X14. With the collection variable unset or empty, [indexDocument]
    never writes: whatever the file and whatever the collaborators do,
    the database after the call is the database before it. *)
Theorem indexDocument_unset_never_writes :
  forall (Vector : Type) (cfg : Config) (svc : Services Vector)
         (file bucketFileId mimeType : jsstring) (w : World Vector),
    env_truthy (NEXT_PUBLIC_APPWRITE_VECTOR_COLLECTION cfg) = false ->
    database (snd (indexDocument cfg svc file bucketFileId mimeType w))
    = database w.
Proof.
  intros Vector cfg svc file bucketFileId mimeType w Henv.
  destruct (svc_createAdminClient svc) as [e|] eqn:Hclient.
  - unfold indexDocument, bind at 1, createAdminClient. rewrite Hclient.
    reflexivity.
  - rewrite (indexDocument_run cfg svc file bucketFileId mimeType w Hclient).
    cbn zeta.
    destruct (svc_getFileDownload svc _ (bucketId cfg) bucketFileId)
      as [fileBuffer|e]; [|reflexivity].
    destruct (extractTextFromFile svc fileBuffer mimeType) as [text|e];
      [|reflexivity].
    match goal with
    | |- context [indexChunks cfg svc file (chunkText text) ?w3] =>
        pose proof (indexChunks_unset_keeps_database cfg svc file
                      (chunkText text) w3 Henv) as Hkeep;
        destruct (indexChunks cfg svc file (chunkText text) w3)
          as [[[]|e] w']
    end; cbn [fst snd emit database] in *; exact Hkeep.
Qed.

(** A database that would accept every write, but no collection is
    configured. *)
Lemma indexDocument_unset_never_writes_witness :
  database
    (snd (indexDocument Fixture.cfg_unset
            (Fixture.healthy (Fixture.ascii_blob "x" 2500)) (lit "file1")
            (lit "blob1") (lit "text/plain") Fixture.two_tenants))
  = database Fixture.two_tenants.
Proof.
  apply (@indexDocument_unset_never_writes Fixture.Vec Fixture.cfg_unset
           (Fixture.healthy (Fixture.ascii_blob "x" 2500)) (lit "file1")
           (lit "blob1") (lit "text/plain") Fixture.two_tenants).
  reflexivity.
Defined.
